(** * LuaTools plugin backend: achievements, packaging and version scripts

    A shallow embedding of
      - backend/achievements.py  (module [Achievements]),
      - scripts/build_zip.py     (module [BuildZip]),
      - scripts/get_version.py   (module [GetVersion]),
    together with the properties their specification states.

    Python values are an inductive type, exceptions are values of a result
    type, and code that talks to the outside world (the file system, the
    SAM.CLI process, the clock) is written in a state-and-exception monad
    whose state records what was done.  Library functions whose behaviour is
    not part of this repository ([json.loads], the codecs, [repr]) are fields
    of a record the model is parameterised by.

    Text is [string]: a sequence of characters in the range U+0000..U+00FF.
    Logging ([logger.log], [logger.warn], [_write_debug_log]) only appends to
    sinks that nothing reads back; it is left out of the model. *)

From Stdlib Require Import ZArith List String Ascii Bool Lia PrimFloat.
From Stdlib Require Import DecimalString.
Import ListNotations.

Local Set Warnings "-register-all".

Open Scope string_scope.
Open Scope list_scope.
Open Scope Z_scope.

Infix "+++" := String.append (at level 60, right associativity).

(* ================================================================= *)
(** ** Python text *)

Module PyStr.

(** [str.isspace] on one character, for the characters below U+0100. *)
Definition isspace (c : ascii) : bool :=
  let n := nat_of_ascii c in
  ((9 <=? n) && (n <=? 13) || (28 <=? n) && (n <=? 32)
   || (n =? 133) || (n =? 160))%nat.

(** [s.lstrip()] *)
Fixpoint lstrip (s : string) : string :=
  match s with
  | EmptyString => EmptyString
  | String c r => if isspace c then lstrip r else s
  end.

(** [s.rstrip()] *)
Fixpoint rstrip (s : string) : string :=
  match s with
  | EmptyString => EmptyString
  | String c r =>
      match rstrip r with
      | EmptyString => if isspace c then EmptyString else String c EmptyString
      | r' => String c r'
      end
  end.

(** [s.strip()] *)
Definition strip (s : string) : string := rstrip (lstrip s).

(** [s.find(c)] for a one-character needle: the lowest index, or -1. *)
Fixpoint find (c : ascii) (s : string) : Z :=
  match s with
  | EmptyString => -1
  | String d r =>
      if Ascii.eqb d c then 0
      else let i := find c r in if i =? -1 then -1 else i + 1
  end.

(** [s.rfind(c)] for a one-character needle: the highest index, or -1. *)
Fixpoint rfind (c : ascii) (s : string) : Z :=
  match s with
  | EmptyString => -1
  | String d r =>
      let i := rfind c r in
      if i =? -1 then (if Ascii.eqb d c then 0 else -1) else i + 1
  end.

Definition len (s : string) : Z := Z.of_nat (String.length s).

(** A slice bound as Python clamps it: negative bounds count from the end. *)
Definition clamp (n i : Z) : Z :=
  if i <? 0 then Z.max 0 (i + n) else Z.min i n.

(** [s[a:b]] *)
Definition slice (s : string) (a b : Z) : string :=
  let lo := clamp (len s) a in
  let hi := clamp (len s) b in
  String.substring (Z.to_nat lo) (Z.to_nat (hi - lo)) s.

(** [s.startswith(p)] *)
Fixpoint startswith (p s : string) : bool :=
  match p, s with
  | EmptyString, _ => true
  | String a p', String b s' => Ascii.eqb a b && startswith p' s'
  | String _ _, EmptyString => false
  end.

(** [p in s] *)
Fixpoint contains (p s : string) : bool :=
  startswith p s ||
  match s with
  | EmptyString => false
  | String _ r => contains p r
  end.

(** [s.replace(a, b)] for one-character [a] and [b]. *)
Fixpoint replace (a b : ascii) (s : string) : string :=
  match s with
  | EmptyString => EmptyString
  | String c r => String (if Ascii.eqb c a then b else c) (replace a b r)
  end.

(** The double quote, and a text between double quotes. *)
Definition dq : ascii := "034"%char.
Definition quoted (s : string) : string := String dq (s +++ String dq "").

(** [str(n)] for an integer. *)
Definition of_Z (z : Z) : string := NilEmpty.string_of_int (Z.to_int z).

End PyStr.

(* ================================================================= *)
(** ** Python values, exceptions and results *)

(** The exception classes the code can meet; all derive from [Exception].
    [JSONDecodeError] is the only one a handler singles out. *)
Inductive exn_class :=
  | JSONDecodeError | UnicodeDecodeError | AttributeError | TypeError
  | ValueError | OSError | RuntimeError.

Record exn := mk_exn { exn_cls : exn_class; exn_msg : string }.

Inductive pyresult (A : Type) :=
  | Ok (a : A)
  | Raise (e : exn).
Arguments Ok {A} a.
Arguments Raise {A} e.

Definition is_json_error (e : exn) : bool :=
  match exn_cls e with JSONDecodeError => true | _ => false end.

Definition is_json_error_result {A} (r : pyresult A) : bool :=
  match r with Ok _ => false | Raise e => is_json_error e end.

Definition is_unicode_error (e : exn) : bool :=
  match exn_cls e with UnicodeDecodeError => true | _ => false end.


(** The values that arrive from the front end or from [json.loads]. *)
Inductive pyval :=
  | PNone
  | PBool (b : bool)
  | PInt (z : Z)
  | PFloat (f : float)
  | PStr (s : string)
  | PList (l : list pyval)
  | PDict (d : list (string * pyval)).

Module Py.

Definition type_name (v : pyval) : string :=
  match v with
  | PNone => "NoneType" | PBool _ => "bool" | PInt _ => "int"
  | PFloat _ => "float" | PStr _ => "str" | PList _ => "list"
  | PDict _ => "dict"
  end.

(** Truth value of an object, as [if v:] tests it. *)
Definition truthy (v : pyval) : bool :=
  match v with
  | PNone => false
  | PBool b => b
  | PInt z => negb (z =? 0)
  | PFloat f => negb (PrimFloat.eqb f 0%float)
  | PStr s => negb (String.eqb s "")
  | PList l => match l with [] => false | _ => true end
  | PDict d => match d with [] => false | _ => true end
  end.

Definition no_attribute (v : pyval) (attr : string) : exn :=
  mk_exn AttributeError
    ("'" +++ type_name v +++ "' object has no attribute '" +++ attr +++ "'").

(** Lookup in a dict held as an association list with distinct keys. *)
Fixpoint lookup (k : string) (d : list (string * pyval)) : option pyval :=
  match d with
  | [] => None
  | (k', v) :: r => if String.eqb k' k then Some v else lookup k r
  end.

(** [d[k] = v]: an existing key keeps its place. *)
Fixpoint store (k : string) (v : pyval) (d : list (string * pyval)) :=
  match d with
  | [] => [(k, v)]
  | (k', v') :: r =>
      if String.eqb k' k then (k, v) :: r else (k', v') :: store k v r
  end.

(** [o.get(k, default)] *)
Definition get (o : pyval) (k : string) (default : pyval) : pyresult pyval :=
  match o with
  | PDict d => Ok (match lookup k d with Some v => v | None => default end)
  | _ => Raise (no_attribute o "get")
  end.

(** [o.strip()] *)
Definition strip (o : pyval) : pyresult string :=
  match o with
  | PStr s => Ok (PyStr.strip s)
  | _ => Raise (no_attribute o "strip")
  end.

End Py.

(** What the model takes from Python's library. *)
Record PyLib := mk_PyLib {
  (** [json.loads(s)] *)
  json_loads : string -> pyresult pyval;
  (** [str(v)] for a float, a list or a dict *)
  repr_other : pyval -> string;
  (** [int(v)] for anything but an [int] or a [bool] *)
  int_other : pyval -> pyresult Z
}.

(** [str(v)], as an f-string or [print] formats a value. *)
Definition py_str (lib : PyLib) (v : pyval) : string :=
  match v with
  | PStr s => s
  | PNone => "None"
  | PBool true => "True"
  | PBool false => "False"
  | PInt z => PyStr.of_Z z
  | _ => repr_other lib v
  end.

(** [int(v)] *)
Definition py_int (lib : PyLib) (v : pyval) : pyresult Z :=
  match v with
  | PInt z => Ok z
  | PBool b => Ok (Z.b2z b)
  | _ => int_other lib v
  end.

(* ================================================================= *)
(** ** The state-and-exception monad *)

Definition M (S A : Type) : Type := S -> pyresult A * S.

Definition ret {S A} (a : A) : M S A := fun s => (Ok a, s).
Definition raise {S A} (e : exn) : M S A := fun s => (Raise e, s).
Definition bind {S A B} (m : M S A) (k : A -> M S B) : M S B :=
  fun s => match m s with
           | (Ok a, s') => k a s'
           | (Raise e, s') => (Raise e, s')
           end.
(** [try: m  except Exception as e: h e] *)
Definition try_except {S A} (m : M S A) (h : exn -> M S A) : M S A :=
  fun s => match m s with
           | (Ok a, s') => (Ok a, s')
           | (Raise e, s') => h e s'
           end.
Definition lift_result {S A} (r : pyresult A) : M S A := fun s => (r, s).
Definition modify {S} (f : S -> S) : M S unit := fun s => (Ok tt, f s).

Notation "x <- m ;; k" := (bind m (fun x => k))
  (at level 61, m at next level, right associativity).
Notation "m ;;; k" := (bind m (fun _ => k))
  (at level 61, right associativity).

(** The same for code without effects. *)
Definition rbind {A B} (r : pyresult A) (k : A -> pyresult B) : pyresult B :=
  match r with
  | Ok a => k a
  | Raise e => Raise e
  end.

Notation "'let*' x ':=' r 'in' k" := (rbind r (fun x => k))
  (at level 10, x name, r at level 100, k at level 200).

(** A list comprehension [[e for x in l if c]] whose condition and
    expression may raise: [f x] is [Ok None] when the condition fails and
    [Ok (Some y)] when the element yields [y].  Elements are visited in
    order and the first exception ends the comprehension. *)
Fixpoint comprehension {A B} (f : A -> pyresult (option B)) (l : list A)
  : pyresult (list B) :=
  match l with
  | [] => Ok []
  | x :: r =>
      let* y := f x in
      let* ys := comprehension f r in
      Ok (match y with Some b => b :: ys | None => ys end)
  end.

(* ================================================================= *)
(** ** backend/achievements.py *)

Module Achievements.

(** *** The world of [_run_sam_cli] *)

(** What [_run_sam_cli] asks of its surroundings, in the order asked. *)
Inductive tool_event :=
  | EvPluginDir
  | EvExists (path : string)
  | EvPopen (cmd_args : list string) (creationflags : Z).

Definition history := list tool_event.

(** The surroundings answer each request knowing everything asked before. *)
Record Env := mk_Env {
  lib : PyLib;
  (** [sys.platform == "win32"] *)
  is_win32 : bool;
  (** [get_plugin_dir()] *)
  get_plugin_dir : history -> pyresult string;
  (** [os.path.join(head, *tail)] *)
  path_join : string -> list string -> string;
  (** [os.path.exists(p)] *)
  path_exists : history -> string -> bool;
  (** [subprocess.Popen(cmd_args, ...)] followed by [communicate()]:
      the bytes of stdout and stderr *)
  popen_communicate :
    history -> list string -> Z -> pyresult (list Byte.byte * list Byte.byte);
  (** [b.decode('cp850')], [b.decode('cp1252')], [b.decode('utf-8')] *)
  decode_cp850 : list Byte.byte -> pyresult string;
  decode_cp1252 : list Byte.byte -> pyresult string;
  decode_utf8 : list Byte.byte -> pyresult string;
  (** [b.decode('utf-8', errors='replace')] *)
  decode_utf8_replace : list Byte.byte -> string
}.

Definition is_popen (ev : tool_event) : bool :=
  match ev with EvPopen _ _ => true | _ => false end.

(** The processes started in a history. *)
Definition spawned (h : history) : history := filter is_popen h.

Section Invoker.

Variable env : Env.

Definition call_get_plugin_dir : M history string :=
  fun h => (get_plugin_dir env h, h ++ [EvPluginDir]).

Definition call_path_exists (p : string) : M history bool :=
  fun h => (Ok (path_exists env h p), h ++ [EvExists p]).

Definition call_popen (cmd_args : list string) (creationflags : Z)
  : M history (list Byte.byte * list Byte.byte) :=
  fun h => (popen_communicate env h cmd_args creationflags,
            h ++ [EvPopen cmd_args creationflags]).

(** [{"success": False, "error": msg}] *)
Definition error_result (msg : string) : pyval :=
  PDict [("success", PBool false); ("error", PStr msg)].

(** Lines 72-85: the decoding of stdout. *)
Definition decode_stdout (stdout_bytes : list Byte.byte) : string :=
  let attempt :=
    if is_win32 env then
      match decode_cp850 env stdout_bytes with
      | Ok s => Ok s
      | Raise e =>
          if is_unicode_error e then
            match decode_cp1252 env stdout_bytes with
            | Ok s => Ok s
            | Raise e' =>
                if is_unicode_error e'
                then Ok (decode_utf8_replace env stdout_bytes)
                else Raise e'
            end
          else Raise e
      end
    else decode_utf8 env stdout_bytes in
  match attempt with
  | Ok s => s
  | Raise _ => decode_utf8_replace env stdout_bytes
  end.

(** Lines 92-114: from the decoded stdout to the value returned.  An
    exception of [json.loads] other than [JSONDecodeError] is not handled
    here. *)
Definition parse_stdout (stdout : string) : pyresult pyval :=
  if negb (String.eqb stdout "") then
    let full_output := PyStr.strip stdout in
    let json_start := PyStr.find "{" full_output in
    let json_end := PyStr.rfind "}" full_output in
    if negb (json_start =? -1) && negb (json_end =? -1) then
      let json_str := PyStr.slice full_output json_start (json_end + 1) in
      match json_loads (lib env) json_str with
      | Ok v => Ok v
      | Raise e =>
          if is_json_error e
          then Ok (error_result "Failed to parse SAM CLI output")
          else Raise e
      end
    else Ok (error_result "Invalid output from SAM CLI")
  else Ok (error_result "No output from SAM CLI").

Definition tool_not_found : pyval :=
  error_result "SAM.CLI tool not found. Please reinstall LuaTools.".

(** Lines 41-114: the body of the [try]. *)
Definition run_sam_cli_body (command : string) (appid : pyval)
  (args : list pyval) : M history pyval :=
  plugin_dir <- call_get_plugin_dir ;;
  let sam_cli_path :=
    path_join env plugin_dir ["vendor"; "SAM"; "SAM.CLI.exe"] in
  found <- call_path_exists sam_cli_path ;;
  if negb found then ret tool_not_found
  else
    let cmd_args :=
      [sam_cli_path; command; py_str (lib env) appid]
      ++ map (py_str (lib env)) args in
    let creationflags := if is_win32 env then 134217728 else 0 in
    out <- call_popen cmd_args creationflags ;;
    let stdout := decode_stdout (fst out) in
    lift_result (parse_stdout stdout).

(** [_run_sam_cli(command, appid, *args)] *)
Definition _run_sam_cli (command : string) (appid : pyval)
  (args : list pyval) : M history pyval :=
  try_except (run_sam_cli_body command appid args)
             (fun e => ret (error_result (exn_msg e))).

Definition get_player_achievements (appid : pyval) : M history pyval :=
  _run_sam_cli "get-achievements" appid [].

Definition unlock_achievement (appid achievement_id : pyval)
  : M history pyval :=
  _run_sam_cli "unlock" appid [achievement_id].

Definition lock_achievement (appid achievement_id : pyval)
  : M history pyval :=
  _run_sam_cli "lock" appid [achievement_id].

Definition get_all_achievements_for_app (appid : pyval) : M history pyval :=
  _run_sam_cli "get-achievements" appid [].

End Invoker.

(** *** The bulk importer *)

(** What [import_achievements] does besides computing: the calls of
    [unlock_achievement] and the pauses. *)
Inductive import_event :=
  | IUnlock (appid : Z) (ach_id : string)
  | ISleep (secs : Z).

Definition is_unlock (ev : import_event) : bool :=
  match ev with IUnlock _ _ => true | ISleep _ => false end.

(** A return from inside the function, or the value to go on with. *)
Inductive flow (A : Type) :=
  | Return (response : pyval)
  | Continue (a : A).
Arguments Return {A} response.
Arguments Continue {A} a.

(** Line 169: [[ach for ach in achievements_list if ach.get("unlocked", False)]] *)
Definition keep_unlocked (ach : pyval) : pyresult (option pyval) :=
  let* u := Py.get ach "unlocked" (PBool false) in
  Ok (if Py.truthy u then Some ach else None).

(** Line 170: [[ach.get("id", "").strip() for ach in unlocked_to_import
                if ach.get("id", "").strip()]] *)
Definition stripped_id (ach : pyval) : pyresult (option string) :=
  let* i := Py.get ach "id" (PStr "") in
  let* c := Py.strip i in
  if negb (String.eqb c "") then
    let* i' := Py.get ach "id" (PStr "") in
    let* s := Py.strip i' in
    Ok (Some s)
  else Ok None.

(** Line 173: [[ach_id.strip() for ach_id in achievements_list if ach_id.strip()]] *)
Definition stripped_entry (ach_id : pyval) : pyresult (option string) :=
  let* c := Py.strip ach_id in
  if negb (String.eqb c "") then
    let* s := Py.strip ach_id in
    Ok (Some s)
  else Ok None.

(** Lines 161-181: validation, format detection and filtering. *)
Definition select_ids (achievements_list : pyval)
  : pyresult (flow (list string)) :=
  match achievements_list with
  | PList l =>
      let* found :=
        match l with
        | first_item :: _ =>
            match first_item with
            | PDict _ =>
                let* unlocked_to_import := comprehension keep_unlocked l in
                let* achievement_ids :=
                  comprehension stripped_id unlocked_to_import in
                Ok (Continue achievement_ids)
            | PStr _ =>
                let* achievement_ids := comprehension stripped_entry l in
                Ok (Continue achievement_ids)
            | _ =>
                Ok (Return (error_result "Invalid achievement list format"))
            end
        | [] => Ok (Return (error_result "Achievements list is empty"))
        end in
      match found with
      | Return r => Ok (Return r)
      | Continue [] =>
          Ok (Return (error_result "No unlocked achievements found in backup"))
      | Continue achievement_ids => Ok (Continue achievement_ids)
      end
  | _ => Ok (Return (error_result "Achievements list must be an array"))
  end.

Section Importer.

Variable lib : PyLib.

(** The state of the tool behind [unlock_achievement], and the operation
    itself: the module-level name the loop calls. *)
Variable T : Type.
Variable unlock : Z -> string -> M T pyval.

(** The state of one run: the tool, the events so far and the loop's
    local variables. *)
Record frame := mk_frame {
  tool : T;
  trace : list import_event;
  imported_count : Z;
  failed_count : Z;
  failed_list : list string
}.

Definition call_unlock (appid : Z) (ach_id : string) : M frame pyval :=
  fun s =>
    let (r, t) := unlock appid ach_id (tool s) in
    (r, mk_frame t (trace s ++ [IUnlock appid ach_id])
          (imported_count s) (failed_count s) (failed_list s)).

Definition sleep (secs : Z) : M frame unit :=
  modify (fun s => mk_frame (tool s) (trace s ++ [ISleep secs])
                     (imported_count s) (failed_count s) (failed_list s)).

Definition incr_imported : M frame unit :=
  modify (fun s => mk_frame (tool s) (trace s)
                     (imported_count s + 1) (failed_count s) (failed_list s)).

Definition incr_failed : M frame unit :=
  modify (fun s => mk_frame (tool s) (trace s)
                     (imported_count s) (failed_count s + 1) (failed_list s)).

Definition append_failed (line : string) : M frame unit :=
  modify (fun s => mk_frame (tool s) (trace s)
                     (imported_count s) (failed_count s)
                     (failed_list s ++ [line])).

(** Lines 193-209: one identifier. *)
Definition import_one (appid : Z) (ach_id : string) : M frame unit :=
  try_except
    (result <- call_unlock appid ach_id ;;
     ok <- lift_result (Py.get result "success" PNone) ;;
     if Py.truthy ok then incr_imported
     else
       incr_failed ;;;
       error_msg <- lift_result
                      (Py.get result "error" (PStr "Unknown error")) ;;
       append_failed (ach_id +++ ": " +++ py_str lib error_msg))
    (fun exc =>
       incr_failed ;;;
       append_failed (ach_id +++ ": Exception - " +++ exn_msg exc)).

(** Lines 191-213: [for i, ach_id in enumerate(achievement_ids, 1)], with
    [total] the length of the whole list and [i] the index of the head. *)
Fixpoint import_loop (appid total i : Z) (ids : list string) : M frame unit :=
  match ids with
  | [] => ret tt
  | ach_id :: rest =>
      import_one appid ach_id ;;;
      (if i <? total then sleep 1 else ret tt) ;;;
      import_loop appid total (i + 1) rest
  end.

(** Lines 215-228: the summary. *)
Definition build_response (total : Z) (s : frame) : pyval :=
  let result_msg :=
    "Imported " +++ PyStr.of_Z (imported_count s) +++ " achievement(s)" in
  let result_msg :=
    if failed_count s >? 0
    then result_msg +++ ", " +++ PyStr.of_Z (failed_count s) +++ " failed"
    else result_msg in
  let response :=
    [("success", PBool (imported_count s >? 0));
     ("imported", PInt (imported_count s));
     ("failed", PInt (failed_count s));
     ("total_attempted", PInt total);
     ("message", PStr result_msg)] in
  match failed_list s with
  | [] => PDict response
  | _ => PDict (Py.store "failed_details"
                  (PList (map PStr (firstn 10 (failed_list s)))) response)
  end.

(** Lines 160-231: the body of the [try]. *)
Definition import_body (appid achievements_list : pyval) : M frame pyval :=
  appid <- lift_result (py_int lib appid) ;;
  sel <- lift_result (select_ids achievements_list) ;;
  match sel with
  | Return r => ret r
  | Continue achievement_ids =>
      let total := Z.of_nat (List.length achievement_ids) in
      import_loop appid total 1 achievement_ids ;;;
      fun s => (Ok (build_response total s), s)
  end.

(** [import_achievements(appid, achievements_list)], started with the
    tool in state [t]: the value returned, the tool afterwards and the
    events of the run. *)
Definition import_achievements (appid achievements_list : pyval) (t : T)
  : (pyresult pyval * T * list import_event)%type :=
  let (r, s) :=
    try_except (import_body appid achievements_list)
               (fun exc => ret (error_result (exn_msg exc)))
               (mk_frame t [] 0 0 []) in
  (r, tool s, trace s).

End Importer.

(** The call at line 194, [unlock_achievement(appid, ach_id)], with an
    integer and a text. *)
Definition unlock_by_sam (env : Env) (appid : Z) (ach_id : string)
  : M history pyval :=
  unlock_achievement env (PInt appid) (PStr ach_id).

(** [import_achievements] as it is deployed: over [unlock_achievement]. *)
Definition import_achievements_sam (env : Env) (appid achievements_list : pyval)
  (h : history) : (pyresult pyval * history * list import_event)%type :=
  import_achievements (lib env) history (unlock_by_sam env)
    appid achievements_list h.

(** [get_achievements_for_app(appid)], with [json.dumps] as a parameter. *)
Definition get_achievements_for_app (env : Env) (json_dumps : pyval -> string)
  (appid : pyval) : M history string :=
  result <- get_player_achievements env appid ;;
  ret (json_dumps result).

End Achievements.

(* ================================================================= *)
(** ** scripts/build_zip.py *)

Module BuildZip.

(** [should_exclude(path_str, exclude_patterns)] *)
Fixpoint should_exclude (path_str : string) (exclude_patterns : list string)
  : bool :=
  match exclude_patterns with
  | [] => false
  | pattern :: rest =>
      if PyStr.contains pattern path_str then true
      else should_exclude path_str rest
  end.

Definition include : list string :=
  ["backend"; "public"; "plugin.json"; "requirements.txt"; "readme"].

Definition exclude_patterns : list string :=
  ["__pycache__"; ".pyc"; ".pyo"; ".git"; ".gitignore"; ".zip";
   "temp_dl"; "data"; "update_pending.zip"; "update_pending.json";
   "api.json"; "loadedappids.txt"; "appidlogs.txt"].

(** One path met by [full_path.rglob('*')]: [str(file_path)],
    [str(file_path.relative_to(root_dir))] and [file_path.is_file()]. *)
Record entry := mk_entry {
  e_path : string;
  e_rel : string;
  e_is_file : bool
}.

(** What [root_dir / include_item] is: nothing, something that is not a
    directory (with its [str]), or a directory with everything
    [rglob('*')] meets below it, in order.  Relative to the root,
    [root_dir / include_item] is [include_item]. *)
Inductive node :=
  | Missing
  | NotDir (path : string)
  | Dir (below : list entry).

(** The tree under a root, seen through the include list. *)
Definition tree := string -> string -> node.

(** What the script does: [z.write(filename, arcname)] and [print]. *)
Inductive action :=
  | ZWrite (filename arcname : string)
  | Print (line : string).

Definition normalize (rel : string) : string := PyStr.replace "\" "/" rel.

(** Lines 38-42: one path below an included directory. *)
Definition add_entry (e : entry) : list action :=
  if e_is_file e then
    let rel_path := normalize (e_rel e) in
    if negb (should_exclude rel_path exclude_patterns)
    then [ZWrite (e_path e) rel_path; Print ("  + " +++ rel_path)]
    else []
  else [].

(** Lines 34-46: one include item. *)
Definition add_item (fs : tree) (root_dir include_item : string)
  : list action :=
  match fs root_dir include_item with
  | Missing => []
  | Dir below => flat_map add_entry below
  | NotDir path =>
      let rel_path := normalize include_item in
      [ZWrite path rel_path; Print ("  + " +++ rel_path)]
  end.

(** What a run leaves: the archive's path when one was created, the
    actions in order, and the exit code. *)
Record outcome := mk_outcome {
  output_zip : option string;
  actions : list action;
  exit_code : Z
}.

(** [main()], with [argv] for [sys.argv]. *)
Definition main (fs : tree) (argv : list string) : outcome :=
  match argv with
  | _ :: root_dir :: output_zip :: _ =>
      mk_outcome (Some output_zip)
        (flat_map (add_item fs root_dir) include
         ++ [Print "ZIP created successfully"])
        0
  | _ =>
      mk_outcome None
        [Print "Usage: build_zip.py <root_dir> <output_zip>"] 1
  end.

(** The entry names of the archive, in the order written. *)
Fixpoint arcnames (l : list action) : list string :=
  match l with
  | [] => []
  | ZWrite _ arcname :: r => arcname :: arcnames r
  | Print _ :: r => arcnames r
  end.

End BuildZip.

(* ================================================================= *)
(** ** scripts/get_version.py *)

Module GetVersion.

Record Env := mk_Env {
  lib : PyLib;
  (** [os.path.join(a, b)] *)
  path_join : string -> string -> string;
  (** [open(p, 'r', encoding='utf-8')] and reading it to the end *)
  read_text : string -> pyresult string
}.

(** Lines 17-20: the body of the [try]; the value is what was printed. *)
Definition read_version (env : Env) (plugin_path : string)
  : pyresult string :=
  let* text := read_text env plugin_path in
  let* data := json_loads (lib env) text in
  let* version := Py.get data "version" (PStr "unknown") in
  Ok (py_str (lib env) version).

(** [main()], with [argv] for [sys.argv]: the lines printed and the exit
    code. *)
Definition main (env : Env) (argv : list string) : list string * Z :=
  match argv with
  | _ :: dir :: _ =>
      let plugin_path := path_join env dir "plugin.json" in
      match read_version env plugin_path with
      | Ok line => ([line], 0)
      | Raise _ => (["unknown"], 1)
      end
  | _ => (["unknown"], 1)
  end.

End GetVersion.

(* ================================================================= *)
(** ** A reference decoder and reference surroundings

    The theorems below hold for every [PyLib].  To evaluate the model on
    concrete outputs a decoder is needed; this one follows the grammar of
    Python's [json] decoder (strict mode) for texts without decimal
    fractions and exponents and without escapes above U+00FF.  A text
    outside that fragment is reported with [RuntimeError]. *)

Module JsonRef.

Definition syntax_error (msg : string) : exn := mk_exn JSONDecodeError msg.
Definition unsupported : exn :=
  mk_exn RuntimeError "outside the fragment of the reference decoder".

Definition is_ws (c : ascii) : bool :=
  (Ascii.eqb c " " || Ascii.eqb c "009" || Ascii.eqb c "010"
   || Ascii.eqb c "013")%char.

Fixpoint skip_ws (s : string) : string :=
  match s with
  | String c r => if is_ws c then skip_ws r else s
  | EmptyString => s
  end.

Definition is_digit (c : ascii) : bool :=
  let n := nat_of_ascii c in ((48 <=? n) && (n <=? 57))%nat.

Definition hex_val (c : ascii) : option nat :=
  let n := nat_of_ascii c in
  if ((48 <=? n) && (n <=? 57))%nat then Some (n - 48)%nat
  else if ((65 <=? n) && (n <=? 70))%nat then Some (n - 55)%nat
  else if ((97 <=? n) && (n <=? 102))%nat then Some (n - 87)%nat
  else None.

(** The four hexadecimal digits after a backslash and [u]. *)
Definition hex4 (s : string) : option (nat * string) :=
  match s with
  | String a (String b (String c (String d r))) =>
      match hex_val a, hex_val b, hex_val c, hex_val d with
      | Some x, Some y, Some z, Some w =>
          Some (((x * 16 + y) * 16 + z) * 16 + w, r)%nat
      | _, _, _, _ => None
      end
  | _ => None
  end.

(** The rest of a string literal, after its opening quote. *)
Fixpoint scanstring (fuel : nat) (s : string) : pyresult (string * string) :=
  match fuel with
  | O => Raise unsupported
  | S fuel' =>
      match s with
      | EmptyString => Raise (syntax_error "Unterminated string")
      | String c r =>
          if Ascii.eqb c PyStr.dq then Ok (EmptyString, r)
          else if Ascii.eqb c "\" then
            match r with
            | EmptyString => Raise (syntax_error "Unterminated string")
            | String e r' =>
                let plain (x : ascii) :=
                  let* p := scanstring fuel' r' in
                  Ok (String x (fst p), snd p) in
                if Ascii.eqb e PyStr.dq then plain PyStr.dq
                else if Ascii.eqb e "\" then plain "\"%char
                else if Ascii.eqb e "/" then plain "/"%char
                else if Ascii.eqb e "b" then plain "008"%char
                else if Ascii.eqb e "f" then plain "012"%char
                else if Ascii.eqb e "n" then plain "010"%char
                else if Ascii.eqb e "r" then plain "013"%char
                else if Ascii.eqb e "t" then plain "009"%char
                else if Ascii.eqb e "u" then
                  match hex4 r' with
                  | None => Raise (syntax_error "Invalid \uXXXX escape")
                  | Some (n, r'') =>
                      if (n <? 256)%nat then
                        let* p := scanstring fuel' r'' in
                        Ok (String (ascii_of_nat n) (fst p), snd p)
                      else Raise unsupported
                  end
                else Raise (syntax_error "Invalid \escape")
            end
          else if (nat_of_ascii c <? 32)%nat then
            Raise (syntax_error "Invalid control character")
          else
            let* p := scanstring fuel' r in
            Ok (String c (fst p), snd p)
      end
  end.

(** The digits at the head of a text, as a number, and the rest. *)
Fixpoint digits (acc : Z) (s : string) : Z * string :=
  match s with
  | String c r =>
      if is_digit c then digits (acc * 10 + Z.of_nat (nat_of_ascii c - 48)) r
      else (acc, s)
  | EmptyString => (acc, s)
  end.

(** Whether a fraction or an exponent follows an integer part. *)
Definition float_follows (s : string) : bool :=
  match s with
  | String "." (String d _) => is_digit d
  | String e (String d r) =>
      (Ascii.eqb e "e" || Ascii.eqb e "E") &&
      (is_digit d ||
       ((Ascii.eqb d "+" || Ascii.eqb d "-") &&
        match r with String d' _ => is_digit d' | EmptyString => false end))
  | _ => false
  end.

(** The integer part [0|[1-9][0-9]*] at the head of a text. *)
Definition natural (s : string) : option (Z * string) :=
  match s with
  | String c r =>
      if Ascii.eqb c "0" then Some (0, r)
      else if is_digit c then Some (digits 0 s)
      else None
  | EmptyString => None
  end.

Definition number (s : string) : option (pyresult (pyval * string)) :=
  let signed :=
    match s with
    | String "-" r =>
        match natural r with Some (n, r') => Some (- n, r') | None => None end
    | _ => natural s
    end in
  match signed with
  | Some (n, r) =>
      Some (if float_follows r then Raise unsupported else Ok (PInt n, r))
  | None => None
  end.

(** [s] without the prefix [p], when it starts with it. *)
Fixpoint after (p s : string) : option string :=
  match p, s with
  | EmptyString, _ => Some s
  | String a p', String b s' => if Ascii.eqb a b then after p' s' else None
  | String _ _, EmptyString => None
  end.

Definition constant (s : string) : option (pyval * string) :=
  match after "null" s with Some r => Some (PNone, r) | None =>
  match after "true" s with Some r => Some (PBool true, r) | None =>
  match after "false" s with Some r => Some (PBool false, r) | None =>
  None end end end.

Definition special (s : string) : option (pyval * string) :=
  match after "NaN" s with Some r => Some (PFloat nan, r) | None =>
  match after "Infinity" s with Some r => Some (PFloat infinity, r) | None =>
  match after "-Infinity" s with
  | Some r => Some (PFloat neg_infinity, r)
  | None => None
  end end end.

(** One value at the head of [s]; the members of an object after its first
    key's quote is due; the elements of an array. *)
Fixpoint value (fuel : nat) (s : string) : pyresult (pyval * string) :=
  match fuel with
  | O => Raise unsupported
  | S fuel' =>
      match s with
      | String "034" r =>
          let* p := scanstring (String.length r + 1) r in
          Ok (PStr (fst p), snd p)
      | String "{" r =>
          match skip_ws r with
          | String "}" r' => Ok (PDict [], r')
          | r' =>
              let* p := members fuel' [] r' in
              Ok (PDict (fst p), snd p)
          end
      | String "[" r =>
          match skip_ws r with
          | String "]" r' => Ok (PList [], r')
          | r' =>
              let* p := elements fuel' [] r' in
              Ok (PList (fst p), snd p)
          end
      | _ =>
          match constant s with
          | Some p => Ok p
          | None =>
              match number s with
              | Some r => r
              | None =>
                  match special s with
                  | Some p => Ok p
                  | None => Raise (syntax_error "Expecting value")
                  end
              end
          end
      end
  end

with members (fuel : nat) (acc : list (string * pyval)) (s : string)
  : pyresult (list (string * pyval) * string) :=
  match fuel with
  | O => Raise unsupported
  | S fuel' =>
      match s with
      | String "034" r =>
          let* k := scanstring (String.length r + 1) r in
          match skip_ws (snd k) with
          | String ":" r1 =>
              let* v := value fuel' (skip_ws r1) in
              let acc' := Py.store (fst k) (fst v) acc in
              match skip_ws (snd v) with
              | String "}" r2 => Ok (acc', r2)
              | String "," r2 => members fuel' acc' (skip_ws r2)
              | _ => Raise (syntax_error "Expecting ',' delimiter")
              end
          | _ => Raise (syntax_error "Expecting ':' delimiter")
          end
      | _ =>
          Raise (syntax_error
                   "Expecting property name enclosed in double quotes")
      end
  end

with elements (fuel : nat) (acc : list pyval) (s : string)
  : pyresult (list pyval * string) :=
  match fuel with
  | O => Raise unsupported
  | S fuel' =>
      let* v := value fuel' s in
      let acc' := acc ++ [fst v] in
      match skip_ws (snd v) with
      | String "]" r => Ok (acc', r)
      | String "," r => elements fuel' acc' (skip_ws r)
      | _ => Raise (syntax_error "Expecting ',' delimiter")
      end
  end.

(** [json.loads(s)] on the fragment. *)
Definition loads (s : string) : pyresult pyval :=
  let* p := value (2 * String.length s + 2) (skip_ws s) in
  match skip_ws (snd p) with
  | EmptyString => Ok (fst p)
  | _ => Raise (syntax_error "Extra data")
  end.

(** [int(v)] of anything but an [int] or a [bool], on a fragment: a text
    of decimal digits is converted, [None], lists and dicts are refused. *)
Definition int_other (v : pyval) : pyresult Z :=
  match v with
  | PStr (String c r) =>
      match digits 0 (String c r) with
      | (n, EmptyString) => Ok n
      | _ => Raise unsupported
      end
  | PStr EmptyString =>
      Raise (mk_exn ValueError "invalid literal for int() with base 10: ''")
  | PFloat _ => Raise unsupported
  | _ => Raise (mk_exn TypeError
                  ("int() argument must be a string, a bytes-like object "
                   +++ "or a real number, not '" +++ Py.type_name v +++ "'"))
  end.

Definition pylib : PyLib :=
  mk_PyLib loads (fun v => "<" +++ Py.type_name v +++ ">") int_other.

(** A codec for 7-bit text, on which cp850, cp1252 and utf-8 agree. *)
Definition decode7 (b : list Byte.byte) : pyresult string :=
  if forallb (fun x => (Byte.to_nat x <? 128)%nat) b
  then Ok (string_of_list_byte b)
  else Raise (mk_exn UnicodeDecodeError "byte above 0x7f").

Definition decode7_replace (b : list Byte.byte) : string :=
  string_of_list_byte
    (map (fun x => if (Byte.to_nat x <? 128)%nat then x else Byte.x3f) b).

End JsonRef.

Example strip_ex : PyStr.strip "  [dbg] {}  " = "[dbg] {}".
Proof. reflexivity. Qed.

Example of_Z_ex : PyStr.of_Z (-480) = "-480" /\ PyStr.of_Z 0 = "0".
Proof. split; reflexivity. Qed.

Example slice_ex : PyStr.slice "ab{c}d" 2 5 = "{c}".
Proof. reflexivity. Qed.

(* ================================================================= *)
(** ** Facts about Python text *)

Module PyStrFacts.
Import PyStr.

Lemma app_assoc (a b c : string) : (a +++ b) +++ c = a +++ b +++ c.
Proof. induction a as [|x a IH]; simpl; [reflexivity | now rewrite IH]. Qed.

Lemma app_empty_r (a : string) : a +++ "" = a.
Proof. induction a as [|x a IH]; simpl; [reflexivity | now rewrite IH]. Qed.

Lemma len_app (a b : string) : len (a +++ b) = len a + len b.
Proof.
  unfold len. induction a as [|x a IH]; simpl String.length.
  - reflexivity.
  - simpl String.append. simpl String.length. lia.
Qed.

Lemma len_nonneg (a : string) : 0 <= len a.
Proof. unfold len. lia. Qed.

Lemma len_cons (c : ascii) (a : string) : len (String c a) = len a + 1.
Proof. unfold len. simpl String.length. lia. Qed.

(** [find] and [rfind] answer -1 or an index. *)
Lemma find_range (c : ascii) (s : string) :
  find c s = -1 \/ 0 <= find c s < len s.
Proof.
  induction s as [|d s IH]; simpl find.
  - now left.
  - rewrite len_cons. destruct (Ascii.eqb d c).
    + right. pose proof (len_nonneg s). lia.
    + destruct (find c s =? -1) eqn:E; [now left | right].
      apply Z.eqb_neq in E. lia.
Qed.

Lemma rfind_range (c : ascii) (s : string) :
  rfind c s = -1 \/ 0 <= rfind c s < len s.
Proof.
  induction s as [|d s IH]; simpl rfind.
  - now left.
  - rewrite len_cons. destruct (rfind c s =? -1) eqn:E.
    + destruct (Ascii.eqb d c); [right | now left].
      pose proof (len_nonneg s). lia.
    + right. apply Z.eqb_neq in E. lia.
Qed.

(** A character is absent for [find] exactly when it is for [rfind]. *)
Lemma rfind_absent (c : ascii) (s : string) :
  rfind c s = -1 <-> find c s = -1.
Proof.
  induction s as [|d s IH]; simpl; [tauto|].
  pose proof (find_range c s) as Hf. pose proof (rfind_range c s) as Hr.
  destruct (Ascii.eqb d c).
  - destruct (rfind c s =? -1) eqn:E.
    + split; intro H; discriminate H.
    + apply Z.eqb_neq in E. split; intro H; [lia | discriminate H].
  - destruct (Z.eqb_spec (rfind c s) (-1)) as [E|E];
      destruct (Z.eqb_spec (find c s) (-1)) as [F|F].
    + tauto.
    + exfalso. apply F, IH, E.
    + exfalso. apply E, IH, F.
    + split; intro H; lia.
Qed.

(** The first occurrence, when none comes before. *)
Lemma find_app (c : ascii) (x z : string) :
  find c x = -1 -> find c (x +++ String c z) = len x.
Proof.
  induction x as [|d x IH]; simpl; intro H.
  - now rewrite Ascii.eqb_refl.
  - destruct (Ascii.eqb d c); [discriminate H|].
    destruct (find c x =? -1) eqn:E.
    + apply Z.eqb_eq in E. rewrite (IH E).
      pose proof (len_nonneg x) as Hx.
      destruct (len x =? -1) eqn:F; [apply Z.eqb_eq in F; lia|].
      rewrite len_cons. reflexivity.
    + apply Z.eqb_neq in E. pose proof (find_range c x). lia.
Qed.

(** The last occurrence, when none comes after. *)
Lemma rfind_app (c : ascii) (y z : string) :
  rfind c z = -1 -> rfind c (y +++ String c z) = len y.
Proof.
  intro H. induction y as [|d y IH]; simpl.
  - rewrite H. simpl. now rewrite Ascii.eqb_refl.
  - rewrite IH. pose proof (len_nonneg y) as Hy.
    destruct (len y =? -1) eqn:F; [apply Z.eqb_eq in F; lia|].
    rewrite len_cons. reflexivity.
Qed.

(** Stripping keeps what lies beyond a character that is no space. *)
Lemma lstrip_app (x z : string) (d : ascii) :
  isspace d = false -> lstrip (x +++ String d z) = lstrip x +++ String d z.
Proof.
  intro H. induction x as [|c x IH]; simpl.
  - now rewrite H.
  - destruct (isspace c); [exact IH | reflexivity].
Qed.

Lemma rstrip_app (y z : string) (d : ascii) :
  isspace d = false -> rstrip (y +++ String d z) = y +++ String d (rstrip z).
Proof.
  intro H. induction y as [|c y IH]; simpl.
  - rewrite H. now destruct (rstrip z).
  - rewrite IH. now destruct y.
Qed.

(** Stripping introduces no character. *)
Lemma find_lstrip (c : ascii) (s : string) :
  find c s = -1 -> find c (lstrip s) = -1.
Proof.
  induction s as [|d s IH]; simpl; [easy|].
  intro H. destruct (Ascii.eqb d c) eqn:E; [discriminate H|].
  destruct (find c s =? -1) eqn:F.
  - apply Z.eqb_eq in F. destruct (isspace d); [auto|].
    simpl. rewrite E, F. reflexivity.
  - apply Z.eqb_neq in F. pose proof (find_range c s). lia.
Qed.

Lemma find_rstrip (c : ascii) (s : string) :
  find c s = -1 -> find c (rstrip s) = -1.
Proof.
  induction s as [|d s IH]; simpl; [easy|].
  intro H. destruct (Ascii.eqb d c) eqn:E; [discriminate H|].
  destruct (find c s =? -1) eqn:F.
  - apply Z.eqb_eq in F. specialize (IH F).
    destruct (rstrip s) eqn:R.
    + destruct (isspace d); simpl; [reflexivity|]. now rewrite E.
    + simpl. rewrite E. simpl in IH.
      destruct (Ascii.eqb a c); [discriminate IH|].
      destruct (find c s0 =? -1); [reflexivity|].
      pose proof (find_range c s0). lia.
  - apply Z.eqb_neq in F. pose proof (find_range c s). lia.
Qed.

(** The middle of a text, by position. *)
Lemma substring_middle (x m z : string) :
  String.substring (String.length x) (String.length m) (x +++ m +++ z) = m.
Proof.
  induction x as [|c x IH]; simpl.
  - induction m as [|d m IHm]; simpl.
    + now destruct z.
    + now rewrite IHm.
  - exact IH.
Qed.

Lemma slice_middle (x m z : string) :
  slice (x +++ m +++ z) (len x) (len x + len m) = m.
Proof.
  unfold slice, clamp. rewrite !len_app.
  pose proof (len_nonneg x). pose proof (len_nonneg m).
  pose proof (len_nonneg z).
  destruct (len x <? 0) eqn:A; [apply Z.ltb_lt in A; lia|].
  destruct (len x + len m <? 0) eqn:B; [apply Z.ltb_lt in B; lia|].
  rewrite !Z.min_l by lia.
  replace (len x + len m - len x) with (len m) by lia.
  unfold len. rewrite !Nat2Z.id. apply substring_middle.
Qed.

(** A character that [find] locates splits the text there. *)
Lemma find_split (c : ascii) (s : string) :
  find c s <> -1 ->
  exists x z, s = x +++ String c z /\ len x = find c s.
Proof.
  induction s as [|d s IH]; simpl; [easy|].
  destruct (Ascii.eqb_spec d c) as [->|N].
  - intros _. exists "", s. split; reflexivity.
  - destruct (Z.eqb_spec (find c s) (-1)) as [E|E]; [easy|].
    intros _. destruct (IH E) as (x & z & -> & L).
    exists (String d x), z. split; [reflexivity|].
    rewrite len_cons. lia.
Qed.

Lemma substring_skip (x y : string) (n : nat) :
  String.substring (String.length x) n (x +++ y) = String.substring 0 n y.
Proof. induction x as [|c x IH]; simpl; [reflexivity | exact IH]. Qed.

(** A slice that starts where [find] found [c] is empty or starts with [c]. *)
Lemma slice_from_find (c : ascii) (s : string) (b : Z) :
  find c s <> -1 ->
  slice s (find c s) b = "" \/ exists r, slice s (find c s) b = String c r.
Proof.
  intros H. destruct (find_split c s H) as (x & z & -> & L).
  rewrite <- L. unfold slice.
  set (n := len (x +++ String c z)).
  assert (Hn : len x < n).
  { unfold n. rewrite len_app, len_cons. pose proof (len_nonneg z). lia. }
  pose proof (len_nonneg x) as Hx.
  assert (C : clamp n (len x) = len x).
  { unfold clamp. destruct (Z.ltb_spec (len x) 0); lia. }
  rewrite C.
  replace (Z.to_nat (len x)) with (String.length x)
    by (unfold len; now rewrite Nat2Z.id).
  rewrite substring_skip.
  destruct (Z.to_nat (clamp n b - len x)) as [|k]; simpl.
  - now left.
  - right. eauto.
Qed.

End PyStrFacts.

(* ================================================================= *)
(** ** The invoker *)

Module InvokerFacts.
Import PyStr PyStrFacts Achievements.

(** The path [_run_sam_cli] looks for. *)
Definition sam_cli_path (env : Env) (plugin_dir : string) : string :=
  path_join env plugin_dir ["vendor"; "SAM"; "SAM.CLI.exe"].

(** The command line [_run_sam_cli] builds. *)
Definition cmd_line (env : Env) (plugin_dir command : string)
  (appid : pyval) (args : list pyval) : list string :=
  [sam_cli_path env plugin_dir; command; py_str (lib env) appid]
  ++ map (py_str (lib env)) args.

Definition flags (env : Env) : Z := if is_win32 env then 134217728 else 0.

(** After the history [h] the tool is installed, runs, and its stdout
    decodes to [stdout]. *)
Definition tool_prints (env : Env) (h : history) (command : string)
  (appid : pyval) (args : list pyval) (stdout : string) : Prop :=
  exists plugin_dir out err,
    get_plugin_dir env h = Ok plugin_dir /\
    path_exists env (h ++ [EvPluginDir]) (sam_cli_path env plugin_dir) = true /\
    popen_communicate env
      ((h ++ [EvPluginDir]) ++ [EvExists (sam_cli_path env plugin_dir)])
      (cmd_line env plugin_dir command appid args) (flags env)
    = Ok (out, err) /\
    decode_stdout env out = stdout.

(** The text between the first opening and the last closing brace. *)
Definition json_span (full_output : string) : string :=
  slice full_output (find "{" full_output) (rfind "}" full_output + 1).

(** A text that opens with a brace and closes with one. *)
Definition brace_delimited (obj : string) : Prop :=
  exists mid, obj = String "{" (mid +++ "}").

(** Two texts a tool may print. *)
Definition success_text : string := "{" +++ quoted "success" +++ ": true}".

Definition success_count_text : string :=
  "{" +++ quoted "success" +++ ": true, " +++ quoted "count" +++ ": 2}".

(** Surroundings in which the tool is installed or not and prints a fixed
    7-bit text. *)
Definition fixed_env (installed : bool) (stdout : string) : Env :=
  mk_Env JsonRef.pylib false
    (fun _ => Ok "/opt/luatools")
    (fun a l => String.concat "/" (a :: l))
    (fun _ _ => installed)
    (fun _ _ _ => Ok (list_byte_of_string stdout, []))
    JsonRef.decode7 JsonRef.decode7 JsonRef.decode7 JsonRef.decode7_replace.

(** What a run returns once the tool has printed. *)
Lemma run_prints env h command appid args stdout :
  tool_prints env h command appid args stdout ->
  fst (_run_sam_cli env command appid args h) =
  match parse_stdout env stdout with
  | Ok v => Ok v
  | Raise e => Ok (error_result (exn_msg e))
  end.
Proof.
  intros (dir & out & err & Hd & Hx & Hp & Hs).
  unfold _run_sam_cli, try_except, run_sam_cli_body, bind,
    call_get_plugin_dir, call_path_exists, call_popen, lift_result, ret.
  rewrite Hd. fold (sam_cli_path env dir). rewrite Hx. change (negb true) with false. cbv beta iota.
  unfold cmd_line, flags in Hp. rewrite Hp. simpl fst. rewrite Hs.
  destruct (parse_stdout env stdout); reflexivity.
Qed.

Lemma strip_around (pre mid post : string) :
  strip (pre +++ String "{" (mid +++ "}") +++ post) =
  lstrip pre +++ String "{" (mid +++ "}") +++ rstrip post.
Proof.
  unfold strip. simpl String.append at 2.
  rewrite lstrip_app by reflexivity.
  rewrite (app_assoc mid "}" post). simpl String.append at 3.
  change (lstrip pre +++ String "{" (mid +++ String "}" post))
    with (lstrip pre +++ (String "{" mid) +++ String "}" post).
  rewrite <- (app_assoc (lstrip pre) (String "{" mid) (String "}" post)).
  rewrite rstrip_app by reflexivity.
  rewrite app_assoc. simpl. now rewrite !app_assoc.
Qed.

Lemma span_around (x mid z : string) :
  find "{" x = -1 -> find "}" z = -1 ->
  let s := x +++ String "{" (mid +++ "}") +++ z in
  find "{" s = len x /\ rfind "}" s = len x + len mid + 1 /\
  json_span s = String "{" (mid +++ "}").
Proof.
  intros Hx Hz s.
  assert (F : find "{" s = len x).
  { unfold s. simpl String.append at 2. now apply find_app. }
  assert (R : rfind "}" s = len x + len mid + 1).
  { unfold s. simpl String.append at 2.
    rewrite (app_assoc mid "}" z). simpl String.append at 3.
    change (x +++ String "{" (mid +++ String "}" z))
      with (x +++ (String "{" mid) +++ String "}" z).
    rewrite <- (app_assoc x (String "{" mid) (String "}" z)).
    rewrite rfind_app by now apply rfind_absent.
    rewrite len_app, len_cons. lia. }
  repeat split; trivial.
  unfold json_span. rewrite F, R.
  replace (len x + len mid + 1 + 1)
    with (len x + len (String "{" (mid +++ "}"))).
  - apply slice_middle.
  - rewrite len_cons, len_app. change (len "}") with 1. lia.
Qed.

(** What [parse_stdout] answers when the object stands between a prefix
    without an opening brace and a suffix without a closing one. *)
Lemma parse_stdout_object env pre obj post v :
  brace_delimited obj ->
  find "{" pre = -1 -> find "}" post = -1 ->
  json_loads (lib env) obj = Ok v ->
  json_span (strip (pre +++ obj +++ post)) = obj /\
  parse_stdout env (pre +++ obj +++ post) = Ok v.
Proof.
  intros [mid ->] Hpre Hpost Hv.
  rewrite strip_around.
  destruct (span_around (lstrip pre) mid (rstrip post)) as (F & R & Sp).
  { now apply find_lstrip. }
  { now apply find_rstrip. }
  split; [exact Sp|].
  unfold parse_stdout. rewrite strip_around.
  fold (json_span (lstrip pre +++ String "{" (mid +++ "}") +++ rstrip post)).
  rewrite Sp, Hv.
  assert (N : negb (pre +++ String "{" (mid +++ "}") +++ post =? "")%string
              = true).
  { destruct pre; reflexivity. }
  rewrite N, F, R.
  pose proof (len_nonneg (lstrip pre)). pose proof (len_nonneg mid).
  destruct (Z.eqb_spec (len (lstrip pre)) (-1)); [lia|].
  destruct (Z.eqb_spec (len (lstrip pre) + len mid + 1) (-1)); [lia|].
  reflexivity.
Qed.

(** Without both braces the answer is an error result. *)
Lemma parse_stdout_no_brace env stdout :
  find "{" (strip stdout) = -1 \/ rfind "}" (strip stdout) = -1 ->
  exists msg, parse_stdout env stdout = Ok (error_result msg).
Proof.
  intros H. unfold parse_stdout.
  destruct (negb (stdout =? "")%string); [|eauto].
  destruct H as [H|H]; rewrite H; simpl.
  - eauto.
  - rewrite andb_false_r. eauto.
Qed.

(** A span that does not parse gives an error result or, for an exception
    that is no [JSONDecodeError], that exception. *)
Lemma parse_stdout_bad_span env stdout e :
  json_loads (lib env) (json_span (strip stdout)) = Raise e ->
  (exists msg, parse_stdout env stdout = Ok (error_result msg)) \/
  parse_stdout env stdout = Raise e.
Proof.
  intros H. unfold parse_stdout.
  destruct (negb (stdout =? "")%string); [|eauto].
  destruct (negb (find "{" (strip stdout) =? -1)
            && negb (rfind "}" (strip stdout) =? -1)); [|eauto].
  fold (json_span (strip stdout)). rewrite H.
  destruct (is_json_error e); eauto.
Qed.

(** C1, as the code has it.  When the tool's decoded stdout is a text that
    [json.loads] accepts and that opens and closes with a brace, preceded by
    text without an opening brace and followed by text without a closing
    one, the span from the first opening to the last closing brace of the
    stripped output is exactly that text and [_run_sam_cli] returns its
    decoded value.  When a brace is missing, or when [json.loads] raises on
    the span, [_run_sam_cli] returns a result with [success] false and an
    error text; it does not raise. *)
Theorem C1_json_extraction env h command appid args stdout :
  tool_prints env h command appid args stdout ->
  (forall pre obj post v,
      stdout = pre +++ obj +++ post ->
      brace_delimited obj ->
      find "{" pre = -1 -> find "}" post = -1 ->
      json_loads (lib env) obj = Ok v ->
      json_span (strip stdout) = obj /\
      fst (_run_sam_cli env command appid args h) = Ok v)
  /\ (find "{" (strip stdout) = -1 \/ rfind "}" (strip stdout) = -1 ->
      exists msg,
        fst (_run_sam_cli env command appid args h) = Ok (error_result msg))
  /\ (forall e,
      json_loads (lib env) (json_span (strip stdout)) = Raise e ->
      exists msg,
        fst (_run_sam_cli env command appid args h) = Ok (error_result msg)).
Proof.
  intros Hrun. rewrite (run_prints _ _ _ _ _ _ Hrun). repeat split.
  - subst stdout. now apply (parse_stdout_object env pre obj post v).
  - subst stdout.
    destruct (parse_stdout_object env pre obj post v) as [_ ->]; trivial.
  - intros H. destruct (parse_stdout_no_brace env stdout H) as [msg ->].
    eauto.
  - intros e H.
    destruct (parse_stdout_bad_span env stdout e H) as [[msg ->] | ->]; eauto.
Qed.

(** A run of C1's theorem: two diagnostic lines, then the object. *)
Lemma C1_json_extraction_witness :
  let stdout :=
    "Steam API initialised" +++ String "010" "app 480 ready"
    +++ String "010" success_count_text +++ String "010" "" in
  fst (_run_sam_cli (fixed_env true stdout) "get-achievements" (PInt 480) [] [])
  = Ok (PDict [("success", PBool true); ("count", PInt 2)]).
Proof.
  intro stdout.
  refine (proj2 (proj1 (C1_json_extraction (fixed_env true stdout) []
                          "get-achievements" (PInt 480) [] stdout _)
                   ("Steam API initialised" +++ String "010" "app 480 ready"
                    +++ String "010" "")
                   success_count_text
                   (String "010" "")
                   _ _ _ _ _ _)).
  - exists "/opt/luatools", (list_byte_of_string stdout), [].
    repeat split; vm_compute; reflexivity.
  - reflexivity.
  - exists (quoted "success" +++ ": true, " +++ quoted "count" +++ ": 2").
    reflexivity.
  - reflexivity.
  - reflexivity.
  - reflexivity.
Defined.

(** C1 as the specification words it fails: here the stdout contains a
    JSON object after a diagnostic line, the diagnostic line has a brace of
    its own, and the span from the first opening to the last closing brace
    is not the object and does not parse; the call answers with the
    parse-failure result. *)
Lemma C1_counterexample :
  let obj := success_text in
  let stdout := "loading {cfg}" +++ String "010" obj in
  JsonRef.loads obj = Ok (PDict [("success", PBool true)]) /\
  json_span (strip stdout) = "{cfg}" +++ String "010" obj /\
  is_json_error_result (JsonRef.loads (json_span (strip stdout))) = true /\
  fst (_run_sam_cli (fixed_env true stdout) "get-achievements" (PInt 480) [] [])
  = Ok (error_result "Failed to parse SAM CLI output").
Proof. vm_compute. repeat split; reflexivity. Qed.

(** A handler that returns a value leaves nothing to propagate. *)
Lemma try_except_total {S A} (m : M S A) (f : exn -> A) (s : S) :
  exists a, fst (try_except m (fun e => ret (f e)) s) = Ok a.
Proof.
  unfold try_except, ret. destruct (m s) as [[a|e] s']; simpl; eauto.
Qed.

Lemma try_except_caught {S A} (m : M S A) (f : exn -> A) (s : S) (e : exn) :
  fst (m s) = Raise e ->
  fst (try_except m (fun e => ret (f e)) s) = Ok (f e).
Proof.
  unfold try_except, ret. destruct (m s) as [[a|e'] s']; simpl; congruence.
Qed.

(** A decoder of JSON: a text that opens with a brace decodes, if at all,
    to a dict, and the empty text does not decode. *)
Definition object_decoder (lib : PyLib) : Prop :=
  (forall s v, json_loads lib (String "{" s) = Ok v -> exists d, v = PDict d)
  /\ (forall v, json_loads lib "" <> Ok v).

Lemma parse_stdout_dict env stdout v :
  object_decoder (lib env) ->
  parse_stdout env stdout = Ok v -> exists d, v = PDict d.
Proof.
  intros [Hobj Hemp]. unfold parse_stdout, error_result.
  destruct (negb (stdout =? "")%string); [|intros [= <-]; eauto].
  destruct (Z.eqb_spec (find "{" (strip stdout)) (-1)) as [E|E]; simpl;
    [intros [= <-]; eauto|].
  destruct (negb (rfind "}" (strip stdout) =? -1)); [|intros [= <-]; eauto].
  destruct (slice_from_find "{" (strip stdout)
              (rfind "}" (strip stdout) + 1) E) as [-> | [r ->]].
  - destruct (json_loads (lib env) "") as [w|e] eqn:L.
    + now destruct (Hemp w).
    + destruct (is_json_error e); [intros [= <-]; eauto | discriminate].
  - destruct (json_loads (lib env) (String "{" r)) as [w|e] eqn:L.
    + intros [= <-]. eauto.
    + destruct (is_json_error e); [intros [= <-]; eauto | discriminate].
Qed.

(** What [_run_sam_cli] returns is a dict. *)
Lemma run_dict env command appid args h v :
  object_decoder (lib env) ->
  fst (_run_sam_cli env command appid args h) = Ok v -> exists d, v = PDict d.
Proof.
  intros Hdec.
  unfold _run_sam_cli, try_except, run_sam_cli_body, bind,
    call_get_plugin_dir, call_path_exists, call_popen, lift_result, ret.
  unfold tool_not_found, error_result.
  destruct (get_plugin_dir env h) as [dir|e]; [|intros [= <-]; eauto].
  destruct (path_exists env (h ++ [EvPluginDir]) _);
    [change (negb true) with false | change (negb false) with true];
    cbv beta iota; [|intros [= <-]; eauto].
  match goal with
  | |- context [popen_communicate env ?a ?b ?c] =>
      destruct (popen_communicate env a b c) as [out|e]
  end; [|intros [= <-]; eauto].
  match goal with
  | |- context [parse_stdout env ?a] =>
      destruct (parse_stdout env a) as [w|e] eqn:P
  end; simpl; intros [= <-]; [|eauto].
  exact (parse_stdout_dict _ _ _ Hdec P).
Qed.

(** An exception of spawn or communicate becomes the result. *)
Lemma run_spawn_failure env command appid args h plugin_dir e :
  get_plugin_dir env h = Ok plugin_dir ->
  path_exists env (h ++ [EvPluginDir]) (sam_cli_path env plugin_dir) = true ->
  popen_communicate env
    ((h ++ [EvPluginDir]) ++ [EvExists (sam_cli_path env plugin_dir)])
    (cmd_line env plugin_dir command appid args) (flags env) = Raise e ->
  fst (_run_sam_cli env command appid args h) = Ok (error_result (exn_msg e)).
Proof.
  intros Hd Hx Hp.
  unfold _run_sam_cli, try_except, run_sam_cli_body, bind,
    call_get_plugin_dir, call_path_exists, call_popen, lift_result, ret.
  rewrite Hd. fold (sam_cli_path env plugin_dir). rewrite Hx.
  change (negb true) with false. cbv beta iota.
  unfold cmd_line, flags in Hp. rewrite Hp. reflexivity.
Qed.

(** A missing tool: the fixed answer, and no process. *)
Lemma run_not_found env command appid args h plugin_dir :
  get_plugin_dir env h = Ok plugin_dir ->
  path_exists env (h ++ [EvPluginDir]) (sam_cli_path env plugin_dir) = false ->
  _run_sam_cli env command appid args h =
  (Ok tool_not_found,
   (h ++ [EvPluginDir]) ++ [EvExists (sam_cli_path env plugin_dir)]).
Proof.
  intros Hd Hx.
  unfold _run_sam_cli, try_except, run_sam_cli_body, bind,
    call_get_plugin_dir, call_path_exists, ret.
  rewrite Hd. fold (sam_cli_path env plugin_dir). rewrite Hx. reflexivity.
Qed.

Lemma spawned_app (h h' : history) : spawned (h ++ h') = spawned h ++ spawned h'.
Proof. apply filter_app. Qed.

(** The reference decoder is a decoder of JSON. *)
Lemma ref_object_decoder : object_decoder JsonRef.pylib.
Proof.
  split.
  - intros s v. simpl json_loads. unfold JsonRef.loads.
    change (JsonRef.skip_ws (String "{" s)) with (String "{" s).
    destruct (2 * String.length (String "{" s) + 2)%nat as [|fuel];
      [discriminate|].
    simpl JsonRef.value.
    destruct (JsonRef.skip_ws s) as [|c r] eqn:W.
    + destruct fuel; simpl; discriminate.
    + assert (D : forall p : pyresult (list (string * pyval) * string),
                 rbind (rbind p (fun p => Ok (PDict (fst p), snd p)))
                   (fun p => match JsonRef.skip_ws (snd p) with
                             | "" => Ok (fst p)
                             | String _ _ =>
                                 Raise (JsonRef.syntax_error "Extra data")
                             end) = Ok v ->
                 exists d, v = PDict d).
      { intros [[d r']|e]; simpl; [|discriminate].
        destruct (JsonRef.skip_ws r'); [|discriminate].
        intros [= <-]. eauto. }
      destruct (Ascii.eqb_spec c "}") as [->|N].
      * simpl. destruct (JsonRef.skip_ws r); [|discriminate].
        intros [= <-]. eauto.
      * intros H. apply (D (JsonRef.members fuel [] (String c r))).
        revert H. destruct c as [[] [] [] [] [] [] [] []]; try exact (fun H => H).
        now destruct N.
  - intros v. vm_compute. discriminate.
Qed.

End InvokerFacts.

(* ================================================================= *)
(** ** The bulk importer *)

Module ImporterFacts.
Import Achievements InvokerFacts.

(** What one call of [unlock_achievement] comes to. *)
Inductive verdict :=
  | Imported
  | Failed (line : string).

Definition is_imported (v : verdict) : bool :=
  match v with Imported => true | Failed _ => false end.

(** The lines of the failures, in order. *)
Fixpoint failed_lines (vs : list verdict) : list string :=
  match vs with
  | [] => []
  | Imported :: r => failed_lines r
  | Failed line :: r => line :: failed_lines r
  end.

Definition imported_of (vs : list verdict) : Z :=
  Z.of_nat (List.length (filter is_imported vs)).

Definition failed_of (vs : list verdict) : Z :=
  Z.of_nat (List.length (failed_lines vs)).

(** The events of the loop from index [i] on: one call per identifier and
    a pause after each but the last of [total]. *)
Fixpoint expected_trace (appid total i : Z) (ids : list string)
  : list import_event :=
  match ids with
  | [] => []
  | ach_id :: rest =>
      IUnlock appid ach_id
      :: (if i <? total then [ISleep 1] else [])
      ++ expected_trace appid total (i + 1) rest
  end.

(** A field of a returned dict. *)
Definition field (k : string) (r : pyresult pyval) : option pyval :=
  match r with
  | Ok (PDict d) => Py.lookup k d
  | _ => None
  end.

(** A record of the legacy format: a dict whose [unlocked], when present,
    is a boolean and whose [id], when the record is unlocked and has one,
    is a text. *)
Definition is_legacy_entry (v : pyval) : bool :=
  match v with
  | PDict d =>
      match Py.lookup "unlocked" d with
      | None | Some (PBool false) => true
      | Some (PBool true) =>
          match Py.lookup "id" d with
          | None | Some (PStr _) => true
          | _ => false
          end
      | _ => false
      end
  | _ => false
  end.

(** The specification's words: the records whose [unlocked] is true ... *)
Definition unlocked_is_true (v : pyval) : bool :=
  match v with
  | PDict d =>
      match Py.lookup "unlocked" d with
      | Some (PBool true) => true
      | _ => false
      end
  | _ => false
  end.

Definition id_of (v : pyval) : string :=
  match v with
  | PDict d =>
      match Py.lookup "id" d with
      | Some (PStr s) => s
      | _ => ""
      end
  | _ => ""
  end.

(** ... their identifiers trimmed, the empty ones dropped. *)
Definition legacy_ids (l : list pyval) : list string :=
  filter (fun s => negb (String.eqb s ""))
    (map (fun v => PyStr.strip (id_of v)) (filter unlocked_is_true l)).

(** On records of the legacy format the two comprehensions do not raise
    and select what the specification says. *)
Lemma keep_unlocked_legacy (l : list pyval) :
  forallb is_legacy_entry l = true ->
  comprehension keep_unlocked l = Ok (filter unlocked_is_true l).
Proof.
  induction l as [|v l IH]; simpl; [reflexivity|].
  intros H. apply andb_prop in H as [Hv Hl]. rewrite (IH Hl). clear IH Hl.
  destruct v as [ | | | | | |d]; try discriminate Hv.
  unfold keep_unlocked. simpl in *.
  destruct (Py.lookup "unlocked" d) as [[ |[]| | | | | ]|];
    try discriminate Hv; reflexivity.
Qed.

Lemma stripped_id_legacy (l : list pyval) :
  forallb is_legacy_entry l = true ->
  comprehension stripped_id (filter unlocked_is_true l) = Ok (legacy_ids l).
Proof.
  unfold legacy_ids.
  induction l as [|v l IH]; simpl; [reflexivity|].
  intros H. apply andb_prop in H as [Hv Hl]. specialize (IH Hl).
  destruct v as [ | | | | | |d]; try discriminate Hv.
  simpl in *.
  destruct (Py.lookup "unlocked" d) as [[ |[]| | | | | ]|];
    try discriminate Hv; try exact IH.
  simpl. rewrite IH. unfold stripped_id. simpl.
  destruct (Py.lookup "id" d) as [[ | | | |s| | ]|];
    try discriminate Hv; simpl.
  - now destruct (PyStr.strip s =? "")%string.
  - reflexivity.
Qed.

Lemma select_ids_legacy (l : list pyval) :
  l <> [] ->
  forallb is_legacy_entry l = true ->
  select_ids (PList l) =
  Ok (match legacy_ids l with
      | [] => Return (error_result "No unlocked achievements found in backup")
      | ids => Continue ids
      end).
Proof.
  intros Hne Hall. unfold select_ids.
  destruct l as [|first rest]; [congruence|].
  assert (Hf : exists d, first = PDict d).
  { simpl in Hall. apply andb_prop in Hall as [Hv _].
    destruct first; try discriminate Hv. eauto. }
  destruct Hf as [d ->].
  rewrite (keep_unlocked_legacy _ Hall). cbn [rbind].
  rewrite (stripped_id_legacy _ Hall). cbn [rbind].
  now destruct (legacy_ids (PDict d :: rest)).
Qed.

(** What a comprehension yields comes from an element that yields it. *)
Lemma comprehension_in {A B} (f : A -> pyresult (option B)) (l : list A) :
  forall ys, comprehension f l = Ok ys ->
  forall y, In y ys -> exists x, In x l /\ f x = Ok (Some y).
Proof.
  induction l as [|x l IH]; simpl; intros ys H y Hy.
  - injection H as <-. destruct Hy.
  - destruct (f x) as [o|e] eqn:Fx; cbn [rbind] in H; [|discriminate].
    destruct (comprehension f l) as [zs|e]; cbn [rbind] in H; [|discriminate].
    injection H as <-.
    assert (Hrest : In y zs -> exists x0, In x0 (x :: l) /\ f x0 = Ok (Some y)).
    { intros Hin. destruct (IH zs eq_refl y Hin) as (x0 & H0 & F0).
      exists x0. split; [now right | exact F0]. }
    destruct o as [b|]; [|now apply Hrest].
    destruct Hy as [<- | Hin]; [|now apply Hrest].
    exists x. split; [now left | exact Fx].
Qed.

(** An element the first comprehension keeps is a dict whose [unlocked]
    holds. *)
Lemma keep_unlocked_some (ach kept : pyval) :
  keep_unlocked ach = Ok (Some kept) ->
  kept = ach /\
  exists d, ach = PDict d /\
    Py.truthy (match Py.lookup "unlocked" d with
               | Some u => u
               | None => PBool false
               end) = true.
Proof.
  unfold keep_unlocked. destruct ach as [ | | | | | |d]; try discriminate.
  cbn [Py.get rbind].
  destruct (Py.truthy _) eqn:Tr; [|discriminate].
  intros [= <-]. split; [reflexivity|]. exists d. now split.
Qed.

(** An identifier the second comprehension yields is the trimmed text of
    the record's [id], and not empty. *)
Lemma stripped_id_some (d : list (string * pyval)) (a : string) :
  stripped_id (PDict d) = Ok (Some a) ->
  exists s, Py.lookup "id" d = Some (PStr s) /\ a = PyStr.strip s /\ a <> "".
Proof.
  unfold stripped_id. cbn [Py.get rbind].
  destruct (Py.lookup "id" d) as [[ | | | |s| | ]|]; try discriminate.
  cbn [Py.strip rbind].
  destruct (String.eqb_spec (PyStr.strip s) "") as [E|N]; [discriminate|].
  intros [= <-]. exists s. now repeat split.
Qed.

(** The identifiers selected from a list that starts with a record. *)
Lemma select_ids_only (d0 : list (string * pyval)) (rest : list pyval)
  (ids : list string) :
  select_ids (PList (PDict d0 :: rest)) = Ok (Continue ids) ->
  forall a, In a ids ->
  exists d s,
    In (PDict d) (PDict d0 :: rest) /\
    Py.truthy (match Py.lookup "unlocked" d with
               | Some u => u
               | None => PBool false
               end) = true /\
    Py.lookup "id" d = Some (PStr s) /\ a = PyStr.strip s /\ a <> "".
Proof.
  unfold select_ids. intros H a Ha.
  destruct (comprehension keep_unlocked (PDict d0 :: rest)) as [u|e] eqn:C1;
    cbn [rbind] in H; [|discriminate].
  destruct (comprehension stripped_id u) as [ys|e] eqn:C2;
    cbn [rbind] in H; [|discriminate].
  destruct ys as [|y ys]; [discriminate|]. injection H as <-.
  destruct (comprehension_in _ _ _ C2 a Ha) as (ach & Hach & Fa).
  destruct (comprehension_in _ _ _ C1 ach Hach) as (src & Hsrc & Fs).
  apply keep_unlocked_some in Fs as (-> & d & -> & Tr).
  apply stripped_id_some in Fa as (s & Hs & Hstrip & Hne).
  exists d, s. repeat split; assumption.
Qed.

Section Loop.

Variable lib : PyLib.
Variable T : Type.
Variable unlock : Z -> string -> M T pyval.

(** How the loop reads the outcome of a call for [ach_id]. *)
Definition judge (ach_id : string) (r : pyresult pyval) : verdict :=
  match r with
  | Raise e => Failed (ach_id +++ ": Exception - " +++ exn_msg e)
  | Ok (PDict d) =>
      match Py.lookup "success" d with
      | Some ok =>
          if Py.truthy ok then Imported
          else Failed (ach_id +++ ": " +++
                       match Py.lookup "error" d with
                       | Some msg => py_str lib msg
                       | None => "Unknown error"
                       end)
      | None =>
          Failed (ach_id +++ ": " +++
                  match Py.lookup "error" d with
                  | Some msg => py_str lib msg
                  | None => "Unknown error"
                  end)
      end
  | Ok v =>
      Failed (ach_id +++ ": Exception - '" +++ Py.type_name v
              +++ "' object has no attribute 'get'")
  end.

(** Calling [unlock] once for each identifier, in order, from the tool
    state [t]: the verdicts, and the tool afterwards. *)
Fixpoint verdicts (appid : Z) (ids : list string) (t : T) : list verdict :=
  match ids with
  | [] => []
  | ach_id :: rest =>
      let (r, t') := unlock appid ach_id t in
      judge ach_id r :: verdicts appid rest t'
  end.

Fixpoint final_tool (appid : Z) (ids : list string) (t : T) : T :=
  match ids with
  | [] => t
  | ach_id :: rest => final_tool appid rest (snd (unlock appid ach_id t))
  end.

(** The frame after a verdict has been counted. *)
Definition counted (v : verdict) (t : T) (ev : list import_event)
  (s : frame T) : frame T :=
  match v with
  | Imported =>
      mk_frame T t (trace T s ++ ev) (imported_count T s + 1)
        (failed_count T s) (failed_list T s)
  | Failed line =>
      mk_frame T t (trace T s ++ ev) (imported_count T s)
        (failed_count T s + 1) (failed_list T s ++ [line])
  end.

Lemma import_one_spec (appid : Z) (ach_id : string) (s : frame T) :
  import_one lib T unlock appid ach_id s =
  (Ok tt,
   counted (judge ach_id (fst (unlock appid ach_id (tool T s))))
     (snd (unlock appid ach_id (tool T s))) [IUnlock appid ach_id] s).
Proof.
  unfold import_one, try_except, bind, call_unlock, lift_result,
    incr_imported, incr_failed, append_failed, modify.
  destruct (unlock appid ach_id (tool T s)) as [[v|e] t']; simpl;
    [|reflexivity].
  destruct v as [ | b | z | f | x | l | d]; simpl; try reflexivity.
  destruct (Py.lookup "success" d) as [ok|]; simpl.
  - destruct (Py.truthy ok); simpl; [reflexivity|].
    destruct (Py.lookup "error" d); reflexivity.
  - destruct (Py.lookup "error" d); reflexivity.
Qed.

Lemma imported_of_cons (v : verdict) (vs : list verdict) :
  imported_of (v :: vs) = (if is_imported v then 1 else 0) + imported_of vs.
Proof.
  unfold imported_of. simpl filter.
  destruct (is_imported v); simpl List.length; lia.
Qed.

Lemma failed_of_cons (v : verdict) (vs : list verdict) :
  failed_of (v :: vs) = (if is_imported v then 0 else 1) + failed_of vs.
Proof.
  unfold failed_of.
  destruct v; cbn [is_imported failed_lines List.length]; lia.
Qed.

Lemma frame_ext (t t' : T) (tr tr' : list import_event) (im im' fa fa' : Z)
  (fl fl' : list string) :
  t = t' -> tr = tr' -> im = im' -> fa = fa' -> fl = fl' ->
  mk_frame T t tr im fa fl = mk_frame T t' tr' im' fa' fl'.
Proof. now intros -> -> -> -> ->. Qed.

(** The loop: every identifier is called once, in order; nothing stops it. *)
Lemma import_loop_spec (appid total : Z) (ids : list string) :
  forall (i : Z) (s : frame T),
    import_loop lib T unlock appid total i ids s =
    (Ok tt,
     mk_frame T (final_tool appid ids (tool T s))
       (trace T s ++ expected_trace appid total i ids)
       (imported_count T s + imported_of (verdicts appid ids (tool T s)))
       (failed_count T s + failed_of (verdicts appid ids (tool T s)))
       (failed_list T s ++ failed_lines (verdicts appid ids (tool T s)))).
Proof.
  induction ids as [|ach_id rest IH]; intros i s.
  - destruct s as [t tr im fa fl]. simpl. unfold ret, imported_of, failed_of.
    simpl. now rewrite !app_nil_r, !Z.add_0_r.
  - simpl import_loop. unfold bind at 1. rewrite import_one_spec.
    unfold bind at 1.
    destruct s as [t tr im fa fl]. simpl tool. simpl verdicts.
    simpl final_tool. simpl expected_trace.
    destruct (unlock appid ach_id t) as [r t'] eqn:U. simpl fst. simpl snd.
    rewrite imported_of_cons, failed_of_cons.
    destruct (judge ach_id r) as [|line]; destruct (i <? total);
      unfold counted, sleep, modify, ret; cbn [tool trace imported_count
        failed_count failed_list]; rewrite IH;
      cbn [tool trace imported_count failed_count failed_list is_imported
           failed_lines];
      (f_equal; apply frame_ext;
       [ reflexivity | now rewrite <- ?app_assoc | lia | lia
       | now rewrite <- ?app_assoc ]).
Qed.

(** The calls among the events. *)
Lemma expected_trace_calls (appid total : Z) (ids : list string) :
  forall i,
    filter is_unlock (expected_trace appid total i ids)
    = map (IUnlock appid) ids.
Proof.
  induction ids as [|a rest IH]; intros i; simpl; [reflexivity|].
  rewrite filter_app, IH. now destruct (i <? total).
Qed.

Lemma verdicts_length (appid : Z) (ids : list string) :
  forall t, List.length (verdicts appid ids t) = List.length ids.
Proof.
  induction ids as [|a rest IH]; intros t; simpl; [reflexivity|].
  destruct (unlock appid a t). simpl. now rewrite IH.
Qed.

(** Every verdict is counted on exactly one side. *)
Lemma imported_failed_total (vs : list verdict) :
  imported_of vs + failed_of vs = Z.of_nat (List.length vs).
Proof.
  unfold imported_of, failed_of.
  induction vs as [|[|line] r IH]; simpl List.length in *; lia.
Qed.

(** A run that reaches the loop. *)
Lemma import_reaches_loop (appid l : pyval) (t : T) (z : Z)
  (ids : list string) :
  py_int lib appid = Ok z ->
  select_ids l = Ok (Continue ids) ->
  import_achievements lib T unlock appid l t =
  (Ok (build_response T (Z.of_nat (List.length ids))
         (mk_frame T (final_tool z ids t)
            (expected_trace z (Z.of_nat (List.length ids)) 1 ids)
            (imported_of (verdicts z ids t))
            (failed_of (verdicts z ids t))
            (failed_lines (verdicts z ids t)))),
   final_tool z ids t,
   expected_trace z (Z.of_nat (List.length ids)) 1 ids).
Proof.
  intros Hz Hsel.
  unfold import_achievements, try_except, import_body, bind, lift_result.
  rewrite Hz, Hsel. rewrite import_loop_spec. reflexivity.
Qed.

(** A run that returns before the loop: nothing is called. *)
Lemma import_returns_early (appid l : pyval) (t : T) (z : Z) (r : pyval) :
  py_int lib appid = Ok z ->
  select_ids l = Ok (Return r) ->
  import_achievements lib T unlock appid l t = (Ok r, t, []).
Proof.
  intros Hz Hsel.
  unfold import_achievements, try_except, import_body, bind, lift_result.
  rewrite Hz, Hsel. reflexivity.
Qed.

(** A run whose validation raises: the handler answers. *)
Lemma import_raises (appid l : pyval) (t : T) (e : exn) :
  py_int lib appid = Raise e \/
  (exists z, py_int lib appid = Ok z) /\ select_ids l = Raise e ->
  import_achievements lib T unlock appid l t =
  (Ok (error_result (exn_msg e)), t, []).
Proof.
  unfold import_achievements, try_except, import_body, bind, lift_result.
  intros [Hz | [[z Hz] Hsel]]; rewrite Hz; [|rewrite Hsel]; reflexivity.
Qed.

(** Identifiers that reach the loop are at least one. *)
Lemma select_ids_nonempty (l : pyval) (ids : list string) :
  select_ids l = Ok (Continue ids) -> ids <> [].
Proof.
  unfold select_ids. destruct l as [ | | | | |l| ]; try discriminate.
  destruct (match l with [] => _ | _ => _ end) as [[r|[|a ids']]|e];
    simpl; try discriminate.
  intros [= <-]. discriminate.
Qed.

(** The fields of the summary. *)
Lemma response_fields (total : Z) (s : frame T) :
  let r := Ok (build_response T total s) in
  field "success" r = Some (PBool (imported_count T s >? 0)) /\
  field "imported" r = Some (PInt (imported_count T s)) /\
  field "failed" r = Some (PInt (failed_count T s)) /\
  field "total_attempted" r = Some (PInt total) /\
  field "failed_details" r =
    match failed_list T s with
    | [] => None
    | _ => Some (PList (map PStr (firstn 10 (failed_list T s))))
    end.
Proof.
  unfold build_response. destruct (failed_list T s); simpl; repeat split.
Qed.

(** When every call raises, every verdict is a failure that says so. *)
Lemma verdicts_all_raise (appid : Z) (ids : list string) :
  (forall a i t, exists e, fst (unlock a i t) = Raise e) ->
  forall t,
    imported_of (verdicts appid ids t) = 0 /\
    Forall2 (fun ach_id line =>
               exists e, line = ach_id +++ ": Exception - " +++ exn_msg e)
      ids (failed_lines (verdicts appid ids t)).
Proof.
  intros Hall. induction ids as [|a rest IH]; intros t; simpl.
  - split; [reflexivity | constructor].
  - destruct (Hall appid a t) as [e He].
    destruct (unlock appid a t) as [r t']. simpl in He. subst r.
    destruct (IH t') as [I F]. rewrite imported_of_cons. simpl. split.
    + exact I.
    + constructor; [eauto | exact F].
Qed.

Lemma firstn_10_length {A} (l : list A) :
  (List.length (firstn 10 l) <= 10)%nat.
Proof. apply firstn_le_length. Qed.

(** C4.  When a call reaches the loop with [N] identifiers and every call
    of unlock-one raises, the summary has [imported] 0, [failed] [N] and
    [success] false; every identifier was still called, once and in order;
    and [failed_details] holds the first ten of the [N] failure lines, each
    of them the identifier followed by the exception's message. *)
Theorem C4_every_call_raises (appid l : pyval) (t : T) (z : Z)
  (ids : list string) :
  py_int lib appid = Ok z ->
  select_ids l = Ok (Continue ids) ->
  (forall a i t', exists e, fst (unlock a i t') = Raise e) ->
  let r := fst (fst (import_achievements lib T unlock appid l t)) in
  let tr := snd (import_achievements lib T unlock appid l t) in
  field "imported" r = Some (PInt 0) /\
  field "failed" r = Some (PInt (Z.of_nat (List.length ids))) /\
  field "success" r = Some (PBool false) /\
  filter is_unlock tr = map (IUnlock z) ids /\
  exists lines,
    Forall2 (fun ach_id line =>
               exists e, line = ach_id +++ ": Exception - " +++ exn_msg e)
      ids lines /\
    field "failed_details" r = Some (PList (map PStr (firstn 10 lines))) /\
    (List.length (firstn 10 lines) <= 10)%nat.
Proof.
  intros Hz Hsel Hall r tr. subst r tr.
  rewrite (import_reaches_loop _ _ _ _ _ Hz Hsel). simpl fst. simpl snd.
  destruct (verdicts_all_raise z ids Hall t) as [I F].
  destruct (response_fields (Z.of_nat (List.length ids))
              (mk_frame T (final_tool z ids t)
                 (expected_trace z (Z.of_nat (List.length ids)) 1 ids)
                 (imported_of (verdicts z ids t))
                 (failed_of (verdicts z ids t))
                 (failed_lines (verdicts z ids t))))
    as (Fs & Fi & Ff & _ & Fd).
  cbn [imported_count failed_count failed_list] in Fs, Fi, Ff, Fd.
  match type of Fs with field _ ?x = _ => set (r := x) in * end.
  clearbody r.
  pose proof (imported_failed_total (verdicts z ids t)) as Tot.
  rewrite verdicts_length, I in Tot.
  rewrite Fs, Fi, Ff, I. replace (failed_of (verdicts z ids t))
    with (Z.of_nat (List.length ids)) by lia.
  repeat split; [apply expected_trace_calls|].
  exists (failed_lines (verdicts z ids t)). repeat split.
  - exact F.
  - rewrite Fd. destruct (failed_lines (verdicts z ids t)) eqn:E;
      [|reflexivity].
    apply select_ids_nonempty in Hsel. inversion F; subst; congruence.
  - apply firstn_10_length.
Qed.

(** C6.  When a call reaches the loop, unlock-one is called once for each
    identifier, in input order; each call imported counts in [imported],
    each other call counts in [failed] and leaves its line, the identifier
    followed by the error, in the failure details (the first ten are
    returned); [total_attempted] is the number of identifiers and [success]
    says whether anything was imported.  For the two identifiers "ach1" and
    "ach2", both unlocked, the summary is success, 2 imported, 0 failed,
    2 attempted. *)
Theorem C6_sequential_import (appid l : pyval) (t : T) (z : Z)
  (ids : list string) :
  py_int lib appid = Ok z ->
  select_ids l = Ok (Continue ids) ->
  let r := fst (fst (import_achievements lib T unlock appid l t)) in
  let tr := snd (import_achievements lib T unlock appid l t) in
  let vs := verdicts z ids t in
  filter is_unlock tr = map (IUnlock z) ids /\
  List.length vs = List.length ids /\
  field "imported" r = Some (PInt (imported_of vs)) /\
  field "failed" r = Some (PInt (failed_of vs)) /\
  field "total_attempted" r = Some (PInt (Z.of_nat (List.length ids))) /\
  field "success" r = Some (PBool (imported_of vs >? 0)) /\
  field "failed_details" r =
    match failed_lines vs with
    | [] => None
    | _ => Some (PList (map PStr (firstn 10 (failed_lines vs))))
    end /\
  (l = PList [PStr "ach1"; PStr "ach2"] -> vs = [Imported; Imported] ->
   field "success" r = Some (PBool true) /\
   field "imported" r = Some (PInt 2) /\
   field "failed" r = Some (PInt 0) /\
   field "total_attempted" r = Some (PInt 2)).
Proof.
  intros Hz Hsel r tr vs. subst r tr.
  rewrite (import_reaches_loop _ _ _ _ _ Hz Hsel). simpl fst. simpl snd.
  destruct (response_fields (Z.of_nat (List.length ids))
              (mk_frame T (final_tool z ids t)
                 (expected_trace z (Z.of_nat (List.length ids)) 1 ids)
                 (imported_of vs) (failed_of vs) (failed_lines vs)))
    as (Fs & Fi & Ff & Ft & Fd).
  cbn [imported_count failed_count failed_list] in Fs, Fi, Ff, Fd.
  fold vs. rewrite Fs, Fi, Ff, Ft, Fd.
  split; [apply expected_trace_calls|].
  split; [apply verdicts_length|].
  do 5 (split; [reflexivity|]).
  intros -> Hvs. rewrite Hvs.
  vm_compute in Hsel. injection Hsel as <-.
  repeat split.
Qed.

(** C10.  When a call reaches the loop, [imported] and [failed] add up to
    [total_attempted], which is the number of identifiers selected, and
    the summary has the key [failed_details] exactly when [failed] is
    positive. *)
Theorem C10_counts_add_up (appid l : pyval) (t : T) (z : Z)
  (ids : list string) :
  py_int lib appid = Ok z ->
  select_ids l = Ok (Continue ids) ->
  let r := fst (fst (import_achievements lib T unlock appid l t)) in
  exists i f,
    field "imported" r = Some (PInt i) /\
    field "failed" r = Some (PInt f) /\
    field "total_attempted" r = Some (PInt (Z.of_nat (List.length ids))) /\
    i + f = Z.of_nat (List.length ids) /\
    (field "failed_details" r <> None <-> 0 < f).
Proof.
  intros Hz Hsel r. subst r.
  rewrite (import_reaches_loop _ _ _ _ _ Hz Hsel). simpl fst.
  set (vs := verdicts z ids t).
  destruct (response_fields (Z.of_nat (List.length ids))
              (mk_frame T (final_tool z ids t)
                 (expected_trace z (Z.of_nat (List.length ids)) 1 ids)
                 (imported_of vs) (failed_of vs) (failed_lines vs)))
    as (_ & Fi & Ff & Ft & Fd).
  cbn [imported_count failed_count failed_list] in Fi, Ff, Fd.
  exists (imported_of vs), (failed_of vs).
  rewrite Fi, Ff, Ft, Fd. repeat split.
  - rewrite imported_failed_total. unfold vs. now rewrite verdicts_length.
  - unfold failed_of. destruct (failed_lines vs); simpl List.length;
      [congruence | lia].
  - unfold failed_of. destruct (failed_lines vs); simpl List.length;
      [lia | discriminate].
Qed.

(** The calls among the events of a run. *)
Lemma trace_calls (appid l : pyval) (t : T) (z : Z) :
  py_int lib appid = Ok z ->
  filter is_unlock (snd (import_achievements lib T unlock appid l t))
  = match select_ids l with
    | Ok (Continue ids) => map (IUnlock z) ids
    | _ => []
    end.
Proof.
  intros Hz. destruct (select_ids l) as [[r|ids]|e] eqn:Hsel.
  - now rewrite (import_returns_early _ _ _ _ _ Hz Hsel).
  - rewrite (import_reaches_loop _ _ _ _ _ Hz Hsel). cbn [snd].
    apply expected_trace_calls.
  - rewrite (import_raises appid l t e) by eauto. reflexivity.
Qed.

(** C5.  For a non-empty list whose first element is a record, the whole
    list is read as the legacy format.  Every identifier unlock-one is
    attempted on is the trimmed, non-empty [id] of a record of the list
    whose [unlocked] holds.  When the list is of the legacy format (each
    element a record with a boolean [unlocked] and a text [id]), the
    identifiers attempted are exactly, and in order, the trimmed non-empty
    identifiers of the records whose [unlocked] is true.  For the two
    records [{"id": "a", "unlocked": true}] and
    [{"id": "b", "unlocked": false}] only "a" is attempted. *)
Theorem C5_legacy_list (appid : pyval) (l : list pyval) (t : T) (z : Z)
  (d0 : list (string * pyval)) (rest : list pyval) :
  py_int lib appid = Ok z ->
  l = PDict d0 :: rest ->
  let tr := snd (import_achievements lib T unlock appid (PList l) t) in
  (forall a0 a, In (IUnlock a0 a) tr ->
     a0 = z /\
     exists d s,
       In (PDict d) l /\
       Py.truthy (match Py.lookup "unlocked" d with
                  | Some u => u
                  | None => PBool false
                  end) = true /\
       Py.lookup "id" d = Some (PStr s) /\ a = PyStr.strip s /\ a <> "") /\
  (forallb is_legacy_entry l = true ->
   filter is_unlock tr = map (IUnlock z) (legacy_ids l)) /\
  (l = [PDict [("id", PStr "a"); ("unlocked", PBool true)];
        PDict [("id", PStr "b"); ("unlocked", PBool false)]] ->
   filter is_unlock tr = [IUnlock z "a"]).
Proof.
  intros Hz Hl tr.
  pose proof (trace_calls appid (PList l) t z Hz) as Hcalls. fold tr in Hcalls.
  assert (Hlegacy : forallb is_legacy_entry l = true ->
                    filter is_unlock tr = map (IUnlock z) (legacy_ids l)).
  { intros Hall. rewrite Hcalls, select_ids_legacy; trivial.
    - now destruct (legacy_ids l).
    - rewrite Hl. discriminate. }
  split; [|split].
  - intros a0 a Hin.
    assert (Hf : In (IUnlock a0 a) (filter is_unlock tr)).
    { apply filter_In. now split. }
    rewrite Hcalls in Hf.
    destruct (select_ids (PList l)) as [[r|ids]|e] eqn:Hsel;
      try now destruct Hf.
    apply in_map_iff in Hf as (a' & [= <- <-] & Ha).
    split; [reflexivity|]. rewrite Hl in Hsel |- *.
    exact (select_ids_only d0 rest ids Hsel a' Ha).
  - exact Hlegacy.
  - intros E. rewrite Hlegacy; rewrite E; reflexivity.
Qed.

(** The inputs refused before anything is called. *)
Definition rejected (achievements_list : pyval) : bool :=
  match achievements_list with
  | PList [] => true
  | PList (PDict _ :: _) => false
  | PList (PStr _ :: _) => false
  | PList (_ :: _) => true
  | _ => true
  end.

Lemma select_ids_rejected (l : pyval) :
  rejected l = true -> exists r, select_ids l = Ok (Return (error_result r)).
Proof.
  destruct l as [ | | | | |[|[ | | | | | | ] rest]| ]; simpl;
    try discriminate; eauto.
Qed.

(** C7.  An empty array is answered with the error "Achievements list is
    empty", an input that is no array with "Achievements list must be an
    array", and an array whose first element is neither a record nor a
    text with "Invalid achievement list format" -- each with [success]
    false, the tool untouched and no call of unlock-one.  (The messages are
    those of an [appid] that [int] accepts; for any [appid] the answer to
    such an input is an error result and nothing is called.) *)
Theorem C7_rejected_inputs (appid : pyval) (t : T) :
  (forall z, py_int lib appid = Ok z ->
     import_achievements lib T unlock appid (PList []) t
     = (Ok (error_result "Achievements list is empty"), t, []) /\
     (forall l, (forall x, l <> PList x) ->
        import_achievements lib T unlock appid l t
        = (Ok (error_result "Achievements list must be an array"), t, [])) /\
     (forall first rest,
        (forall d, first <> PDict d) -> (forall s, first <> PStr s) ->
        import_achievements lib T unlock appid (PList (first :: rest)) t
        = (Ok (error_result "Invalid achievement list format"), t, []))) /\
  (forall l, rejected l = true ->
     exists msg,
       import_achievements lib T unlock appid l t
       = (Ok (error_result msg), t, [])).
Proof.
  split.
  - intros z Hz. repeat split.
    + now apply (import_returns_early _ _ _ z).
    + intros l Hl. apply (import_returns_early _ _ _ z); trivial.
      destruct l; try reflexivity. now destruct (Hl l).
    + intros first rest Hd Hs. apply (import_returns_early _ _ _ z); trivial.
      destruct first; try reflexivity.
      * now destruct (Hs s).
      * now destruct (Hd d).
  - intros l Hl. destruct (select_ids_rejected l Hl) as [r Hr].
    destruct (py_int lib appid) as [z|e] eqn:Hz.
    + exists r. now apply (import_returns_early _ _ _ z).
    + exists (exn_msg e). apply import_raises. now left.
Qed.

End Loop.

(** *** No exception escapes *)

Lemma select_ids_return (l r : pyval) :
  select_ids l = Ok (Return r) -> exists msg, r = error_result msg.
Proof.
  unfold select_ids. destruct l as [ | | | | |l| ];
    try (intros [= <-]; eauto).
  destruct (match l with [] => _ | _ => _ end) as [[r'|[|a ids]]|e] eqn:X;
    cbn [rbind]; try discriminate; intros [= <-]; [|eauto].
  destruct l as [|first rest]; [injection X as <-; eauto|].
  destruct first; try (injection X as <-; eauto); unfold rbind in X.
  - destruct (comprehension stripped_entry _); discriminate.
  - destruct (comprehension keep_unlocked _); [|discriminate].
    destruct (comprehension stripped_id _); discriminate.
Qed.

(** [import_achievements] returns a dict, whatever it is given. *)
Lemma import_dict (lib : PyLib) (T : Type) (unlock : Z -> string -> M T pyval)
  (appid l : pyval) (t : T) :
  exists d,
    fst (fst (import_achievements lib T unlock appid l t)) = Ok (PDict d).
Proof.
  destruct (py_int lib appid) as [z|e] eqn:Hz.
  - destruct (select_ids l) as [[r|ids]|e] eqn:Hsel.
    + rewrite (import_returns_early _ _ _ _ _ _ _ _ Hz Hsel).
      destruct (select_ids_return _ _ Hsel) as [msg ->].
      unfold error_result. simpl. eauto.
    + rewrite (import_reaches_loop _ _ _ _ _ _ _ _ Hz Hsel). simpl fst.
      unfold build_response. destruct (failed_list _ _); eauto.
    + rewrite (import_raises lib T unlock appid l t e) by eauto.
      unfold error_result. simpl. eauto.
  - rewrite (import_raises lib T unlock appid l t e) by eauto.
    unfold error_result. simpl. eauto.
Qed.

(** C2.  Every operation returns a result and lets no exception out.
    [_run_sam_cli] -- and so fetch-all, unlock-one and lock-one, which are
    calls of it -- always returns a value, a dict when [json.loads] decodes
    objects to dicts; an exception raised in its body, in particular by
    spawn or communicate, becomes the result with [success] false and the
    exception's message as [error].  [import_achievements] always returns a
    dict; an exception raised while coercing [appid] or reading the list
    becomes the result with [success] false and the exception's message. *)
Theorem C2_no_exception_escapes (env : Env) :
  (forall command appid args h,
     (exists v, fst (_run_sam_cli env command appid args h) = Ok v) /\
     (object_decoder (lib env) ->
      exists d, fst (_run_sam_cli env command appid args h) = Ok (PDict d)) /\
     (forall e,
        fst (run_sam_cli_body env command appid args h) = Raise e ->
        fst (_run_sam_cli env command appid args h)
        = Ok (error_result (exn_msg e))) /\
     (forall plugin_dir e,
        get_plugin_dir env h = Ok plugin_dir ->
        path_exists env (h ++ [EvPluginDir]) (sam_cli_path env plugin_dir)
        = true ->
        popen_communicate env
          ((h ++ [EvPluginDir]) ++ [EvExists (sam_cli_path env plugin_dir)])
          (cmd_line env plugin_dir command appid args) (flags env)
        = Raise e ->
        fst (_run_sam_cli env command appid args h)
        = Ok (error_result (exn_msg e)))) /\
  (forall (T : Type) (unlock : Z -> string -> M T pyval) appid l t,
     (exists d,
        fst (fst (import_achievements (lib env) T unlock appid l t))
        = Ok (PDict d)) /\
     (forall e,
        py_int (lib env) appid = Raise e \/
        (exists z, py_int (lib env) appid = Ok z) /\ select_ids l = Raise e ->
        import_achievements (lib env) T unlock appid l t
        = (Ok (error_result (exn_msg e)), t, []))).
Proof.
  split.
  - intros command appid args h.
    destruct (try_except_total (run_sam_cli_body env command appid args)
                (fun e => error_result (exn_msg e)) h) as [v Hv].
    repeat split.
    + exists v. exact Hv.
    + intros Hdec. destruct (run_dict env command appid args h v Hdec Hv)
        as [d ->]. exists d. exact Hv.
    + intros e He.
      exact (try_except_caught _ (fun e => error_result (exn_msg e)) h e He).
    + intros plugin_dir e. apply run_spawn_failure.
  - intros T unlock appid l t. split.
    + apply import_dict.
    + intros e. apply import_raises.
Qed.

(** *** A tool that is not installed *)

(** Whenever it is looked for, the tool's path does not exist. *)
Definition never_installed (env : Env) : Prop :=
  forall h, exists plugin_dir,
    get_plugin_dir env h = Ok plugin_dir /\
    path_exists env (h ++ [EvPluginDir]) (sam_cli_path env plugin_dir) = false.

Definition not_found_line (ach_id : string) : string :=
  ach_id +++ ": SAM.CLI tool not found. Please reinstall LuaTools.".

Lemma run_never_installed env command appid args h :
  never_installed env ->
  fst (_run_sam_cli env command appid args h) = Ok tool_not_found /\
  spawned (snd (_run_sam_cli env command appid args h)) = spawned h.
Proof.
  intros Hn. destruct (Hn h) as (dir & Hd & Hx).
  rewrite (run_not_found env command appid args h dir Hd Hx). simpl.
  split; [reflexivity|]. rewrite !spawned_app. simpl. now rewrite !app_nil_r.
Qed.

Lemma verdicts_never_installed env (z : Z) (ids : list string) :
  never_installed env ->
  forall h,
    verdicts (lib env) history (unlock_by_sam env) z ids h
    = map (fun i => Failed (not_found_line i)) ids /\
    spawned (final_tool history (unlock_by_sam env) z ids h) = spawned h.
Proof.
  intros Hn. induction ids as [|a rest IH]; intros h.
  - split; reflexivity.
  - cbn [verdicts final_tool map].
    destruct (run_never_installed env "unlock" (PInt z) [PStr a] h Hn)
      as [R S].
    change (_run_sam_cli env "unlock" (PInt z) [PStr a] h)
      with (unlock_by_sam env z a h) in R, S.
    destruct (unlock_by_sam env z a h) as [r h'].
    cbn [fst snd] in *. subst r.
    destruct (IH h') as [V F]. rewrite V, F, S.
    split; reflexivity.
Qed.

(** C3.  When the tool's path does not exist, every call of
    [_run_sam_cli] -- so fetch-all, unlock-one and lock-one -- returns the
    fixed result "SAM.CLI tool not found. Please reinstall LuaTools." with
    [success] false and starts no process; an import that reaches its loop
    gets that answer for every identifier (nothing imported, every line of
    the failure details carries the message) and starts no process
    either. *)
Theorem C3_tool_not_found (env : Env) :
  never_installed env ->
  (forall command appid args h,
     fst (_run_sam_cli env command appid args h) = Ok tool_not_found /\
     spawned (snd (_run_sam_cli env command appid args h)) = spawned h) /\
  (forall appid h,
     fst (get_player_achievements env appid h) = Ok tool_not_found /\
     spawned (snd (get_player_achievements env appid h)) = spawned h) /\
  (forall appid ach_id h,
     fst (unlock_achievement env appid ach_id h) = Ok tool_not_found /\
     spawned (snd (unlock_achievement env appid ach_id h)) = spawned h) /\
  (forall appid ach_id h,
     fst (lock_achievement env appid ach_id h) = Ok tool_not_found /\
     spawned (snd (lock_achievement env appid ach_id h)) = spawned h) /\
  (forall appid l h z ids,
     py_int (lib env) appid = Ok z ->
     select_ids l = Ok (Continue ids) ->
     let r := fst (fst (import_achievements_sam env appid l h)) in
     let h' := snd (fst (import_achievements_sam env appid l h)) in
     spawned h' = spawned h /\
     field "success" r = Some (PBool false) /\
     field "imported" r = Some (PInt 0) /\
     field "failed" r = Some (PInt (Z.of_nat (List.length ids))) /\
     field "failed_details" r
     = Some (PList (map PStr (firstn 10 (map not_found_line ids))))).
Proof.
  intros Hn. split; [|split; [|split; [|split]]].
  - intros. now apply run_never_installed.
  - intros. now apply run_never_installed.
  - intros. now apply run_never_installed.
  - intros. now apply run_never_installed.
  - intros appid l h z ids Hz Hsel r h'. subst r h'.
    unfold import_achievements_sam.
    rewrite (import_reaches_loop _ _ _ _ _ _ _ _ Hz Hsel). simpl fst.
    simpl snd.
    destruct (verdicts_never_installed env z ids Hn h) as [V F].
    rewrite V, F.
    assert (L : failed_lines (map (fun i => Failed (not_found_line i)) ids)
                = map not_found_line ids).
    { clear. induction ids; simpl; congruence. }
    assert (I : imported_of (map (fun i => Failed (not_found_line i)) ids) = 0).
    { clear. unfold imported_of. induction ids; simpl; trivial. }
    unfold failed_of. rewrite L, I, length_map.
    split; [reflexivity|].
    unfold build_response.
    cbn [imported_count failed_count failed_list].
    apply select_ids_nonempty in Hsel.
    destruct ids as [|a ids]; [congruence|]. simpl map at 1.
    cbv iota. repeat split.
Qed.

(** *** Runs on concrete inputs *)

(** Three stand-ins for [unlock_achievement]; the tool state counts the
    calls. *)
Definition unlock_ok (appid : Z) (ach_id : string) : M nat pyval :=
  fun n => (Ok (PDict [("success", PBool true)]), S n).

Definition unlock_raises (appid : Z) (ach_id : string) : M nat pyval :=
  fun n => (Raise (mk_exn OSError ("cannot run the tool for " +++ ach_id)),
            S n).

(** The first call succeeds, the later ones are refused by the tool. *)
Definition unlock_first_only (appid : Z) (ach_id : string) : M nat pyval :=
  fun n =>
    (Ok (match n with
         | O => PDict [("success", PBool true)]
         | _ => PDict [("success", PBool false);
                       ("error", PStr "Achievement not found")]
         end), S n).

Definition twelve_ids : list string :=
  ["a01"; "a02"; "a03"; "a04"; "a05"; "a06";
   "a07"; "a08"; "a09"; "a10"; "a11"; "a12"].

Lemma never_installed_fixed : never_installed (fixed_env false "").
Proof. intros h. exists "/opt/luatools". split; reflexivity. Qed.

(** C3 at work: unlocking with the tool missing. *)
Lemma C3_tool_not_found_witness :
  fst (unlock_achievement (fixed_env false "") (PInt 480) (PStr "ACH_WIN") [])
  = Ok (PDict [("success", PBool false);
               ("error",
                PStr "SAM.CLI tool not found. Please reinstall LuaTools.")])
  /\ spawned (snd (unlock_achievement (fixed_env false "") (PInt 480)
                     (PStr "ACH_WIN") [])) = [].
Proof.
  exact (proj1 (proj2 (proj2 (C3_tool_not_found (fixed_env false "")
                                never_installed_fixed)))
           (PInt 480) (PStr "ACH_WIN") []).
Defined.

(** C4 at work: twelve identifiers, every call raising. *)
Lemma C4_every_call_raises_witness :
  let run := import_achievements JsonRef.pylib nat unlock_raises (PInt 480)
               (PList (map PStr twelve_ids)) 0%nat in
  field "imported" (fst (fst run)) = Some (PInt 0) /\
  field "failed" (fst (fst run)) = Some (PInt 12) /\
  field "success" (fst (fst run)) = Some (PBool false) /\
  filter is_unlock (snd run) = map (IUnlock 480) twelve_ids /\
  snd (fst run) = 12%nat.
Proof.
  intro run.
  destruct (C4_every_call_raises JsonRef.pylib nat unlock_raises (PInt 480)
              (PList (map PStr twelve_ids)) 0%nat 480 twelve_ids
              eq_refl eq_refl (fun a i t' => ex_intro _ _ eq_refl))
    as (Hi & Hf & Hs & Hc & _).
  exact (conj Hi (conj Hf (conj Hs (conj Hc eq_refl)))).
Defined.

(** C5 at work: the two records of the specification. *)
Lemma C5_legacy_list_witness :
  filter is_unlock
    (snd (import_achievements JsonRef.pylib nat unlock_ok (PInt 480)
            (PList [PDict [("id", PStr "a"); ("unlocked", PBool true)];
                    PDict [("id", PStr "b"); ("unlocked", PBool false)]])
            0%nat))
  = [IUnlock 480 "a"].
Proof.
  exact (proj2 (proj2 (C5_legacy_list JsonRef.pylib nat unlock_ok (PInt 480)
                   [PDict [("id", PStr "a"); ("unlocked", PBool true)];
                    PDict [("id", PStr "b"); ("unlocked", PBool false)]]
                   0%nat 480 _ _ eq_refl eq_refl)) eq_refl).
Defined.

(** C6 at work: "ach1" and "ach2", both unlocked. *)
Lemma C6_sequential_import_witness :
  let run := import_achievements JsonRef.pylib nat unlock_ok (PInt 480)
               (PList [PStr "ach1"; PStr "ach2"]) 0%nat in
  filter is_unlock (snd run) = [IUnlock 480 "ach1"; IUnlock 480 "ach2"] /\
  field "success" (fst (fst run)) = Some (PBool true) /\
  field "imported" (fst (fst run)) = Some (PInt 2) /\
  field "failed" (fst (fst run)) = Some (PInt 0) /\
  field "total_attempted" (fst (fst run)) = Some (PInt 2).
Proof.
  intro run.
  destruct (C6_sequential_import JsonRef.pylib nat unlock_ok (PInt 480)
              (PList [PStr "ach1"; PStr "ach2"]) 0%nat 480 ["ach1"; "ach2"]
              eq_refl eq_refl)
    as (Hc & _ & _ & _ & _ & _ & _ & Hex).
  split; [exact Hc | exact (Hex eq_refl eq_refl)].
Defined.

(** C10 at work: three identifiers, the first imported, two refused. *)
Lemma C10_counts_add_up_witness :
  let r := fst (fst (import_achievements JsonRef.pylib nat unlock_first_only
                       (PInt 480)
                       (PList [PStr "ach1"; PStr " ach2 "; PStr "ach3"])
                       0%nat)) in
  exists i f,
    field "imported" r = Some (PInt i) /\
    field "failed" r = Some (PInt f) /\
    field "total_attempted" r = Some (PInt 3) /\
    i + f = 3 /\
    (field "failed_details" r <> None <-> 0 < f).
Proof.
  exact (C10_counts_add_up JsonRef.pylib nat unlock_first_only (PInt 480)
           (PList [PStr "ach1"; PStr " ach2 "; PStr "ach3"]) 0%nat 480
           ["ach1"; "ach2"; "ach3"] eq_refl eq_refl).
Defined.

(** The whole summary of that run. *)
Example import_first_only :
  fst (fst (import_achievements JsonRef.pylib nat unlock_first_only (PInt 480)
              (PList [PStr "ach1"; PStr " ach2 "; PStr "ach3"]) 0%nat))
  = Ok (PDict [("success", PBool true); ("imported", PInt 1);
               ("failed", PInt 2); ("total_attempted", PInt 3);
               ("message", PStr "Imported 1 achievement(s), 2 failed");
               ("failed_details",
                PList [PStr "ach2: Achievement not found";
                       PStr "ach3: Achievement not found"])]).
Proof. vm_compute. reflexivity. Qed.

(** Surroundings in which the tool is installed and cannot be started. *)
Definition broken_env : Env :=
  mk_Env JsonRef.pylib true
    (fun _ => Ok "C:\luatools")
    (fun a l => String.concat "\" (a :: l))
    (fun _ _ => true)
    (fun _ _ _ => Raise (mk_exn OSError "[WinError 5] Access is denied"))
    JsonRef.decode7 JsonRef.decode7 JsonRef.decode7 JsonRef.decode7_replace.

(** C2 at work: a tool that cannot be started, and an [appid] that is no
    number. *)
Lemma C2_no_exception_escapes_witness :
  fst (_run_sam_cli broken_env "lock" (PInt 480) [PStr "ACH_WIN"] [])
  = Ok (error_result "[WinError 5] Access is denied") /\
  import_achievements JsonRef.pylib nat unlock_ok PNone
    (PList [PStr "ach1"]) 0%nat
  = (Ok (error_result
           ("int() argument must be a string, a bytes-like object "
            +++ "or a real number, not 'NoneType'")), 0%nat, []).
Proof.
  split.
  - exact (proj2 (proj2 (proj2
             (proj1 (C2_no_exception_escapes broken_env)
                "lock" (PInt 480) [PStr "ACH_WIN"] [])))
             "C:\luatools" _ eq_refl eq_refl eq_refl).
  - exact (proj2 (proj2 (C2_no_exception_escapes broken_env)
                    nat unlock_ok PNone (PList [PStr "ach1"]) 0%nat)
             _ (or_introl eq_refl)).
Defined.

(** C7 at work: the empty array, with the tool installed. *)
Lemma C7_rejected_inputs_witness :
  import_achievements_sam (fixed_env true success_text) (PInt 480)
    (PList []) []
  = (Ok (PDict [("success", PBool false);
                ("error", PStr "Achievements list is empty")]), [], []).
Proof.
  exact (proj1 (proj1 (C7_rejected_inputs JsonRef.pylib history
                         (unlock_by_sam (fixed_env true success_text))
                         (PInt 480) []) 480 eq_refl)).
Defined.

End ImporterFacts.

(* ================================================================= *)
(** ** The packaging script *)

Module BuildZipFacts.
Import PyStr PyStrFacts BuildZip.

(** [p] is a substring of [s]. *)
Definition occurs_in (p s : string) : Prop :=
  exists pre post, s = pre +++ p +++ post.

Lemma startswith_spec (p s : string) :
  startswith p s = true <-> exists post, s = p +++ post.
Proof.
  revert s. induction p as [|a p IH]; intros s; simpl.
  - split; [intros _; now exists s | reflexivity].
  - destruct s as [|b s].
    + split; [discriminate | intros [post H]; discriminate H].
    + rewrite andb_true_iff, IH. split.
      * intros [E [post ->]]. apply Ascii.eqb_eq in E as ->. now exists post.
      * intros [post [= -> ->]]. split; [apply Ascii.eqb_refl | now exists post].
Qed.

(** [contains] decides [occurs_in]. *)
Lemma contains_spec (p s : string) : contains p s = true <-> occurs_in p s.
Proof.
  unfold occurs_in. induction s as [|c s IH].
  - simpl. rewrite orb_false_r, startswith_spec. split.
    + intros [post H]. now exists "", post.
    + intros (pre & post & H). destruct pre; [now exists post | discriminate H].
  - simpl contains. rewrite orb_true_iff, startswith_spec, IH. split.
    + intros [[post H] | (pre & post & H)].
      * now exists "", post.
      * exists (String c pre), post. simpl. now rewrite H.
    + intros (pre & post & H). destruct pre as [|d pre].
      * left. now exists post.
      * right. injection H as _ H. now exists pre, post.
Qed.

(** [should_exclude] says whether some pattern occurs in the path. *)
Lemma should_exclude_spec (path_str : string) (patterns : list string) :
  should_exclude path_str patterns = true <->
  exists pattern, In pattern patterns /\ occurs_in pattern path_str.
Proof.
  induction patterns as [|p r IH]; simpl.
  - split; [discriminate | intros (? & [] & _)].
  - destruct (contains p path_str) eqn:C.
    + split; [|reflexivity]. intros _. exists p. split; [now left|].
      now apply contains_spec.
    + rewrite IH. split.
      * intros (q & Hq & Ho). exists q. split; [now right | exact Ho].
      * intros (q & [<- | Hq] & Ho).
        -- apply contains_spec in Ho. congruence.
        -- now exists q.
Qed.

Lemma should_exclude_false (path_str : string) (patterns : list string) :
  should_exclude path_str patterns = false <->
  forall pattern, In pattern patterns -> ~ occurs_in pattern path_str.
Proof.
  split.
  - intros H p Hp Ho.
    assert (E : should_exclude path_str patterns = true).
    { apply should_exclude_spec. now exists p. }
    congruence.
  - intros H. destruct (should_exclude path_str patterns) eqn:E; trivial.
    apply should_exclude_spec in E as (p & Hp & Ho). now destruct (H p Hp).
Qed.

(** What a path below a directory contributes. *)
Lemma add_entry_writes (e : entry) (filename arcname : string) :
  In (ZWrite filename arcname) (add_entry e) <->
  e_is_file e = true /\ filename = e_path e /\ arcname = normalize (e_rel e)
  /\ should_exclude (normalize (e_rel e)) exclude_patterns = false.
Proof.
  unfold add_entry. destruct (e_is_file e).
  - destruct (should_exclude (normalize (e_rel e)) exclude_patterns); simpl.
    + split; [tauto | intros (_ & _ & _ & H); discriminate H].
    + split.
      * intros [[= <- <-] | [H | []]]; [tauto | discriminate H].
      * intros (_ & -> & -> & _). now left.
  - simpl. split; [tauto | intros [H _]; discriminate H].
Qed.

(** No name of the include list is excluded. *)
Lemma include_not_excluded (item : string) :
  In item include -> should_exclude (normalize item) exclude_patterns = false.
Proof.
  intros H. repeat (destruct H as [<- | H]; [reflexivity|]). destruct H.
Qed.

Definition backend_tree (root_dir include_item : string) : node :=
  if String.eqb include_item "backend" then
    Dir [mk_entry "/src/backend/__pycache__" "backend/__pycache__" false;
         mk_entry "/src/backend/x.pyc" "backend/x.pyc" true;
         mk_entry "/src/backend/x.py" "backend/x.py" true]
  else Missing.

(** C8.  A file met below an existing directory of the include list is
    written to the archive, under its root-relative path with backslashes
    turned into slashes, if and only if none of the deny substrings occurs
    in that path.  When the root holds [backend/x.pyc] and [backend/x.py]
    and nothing else of the include list, the archive holds
    [backend/x.py] only. *)
Theorem C8_archive_contents (fs : tree) (prog root_dir out : string)
  (rest : list string) :
  (forall include_item below e,
     In include_item include ->
     fs root_dir include_item = Dir below ->
     In e below -> e_is_file e = true ->
     (In (ZWrite (e_path e) (normalize (e_rel e)))
         (actions (main fs (prog :: root_dir :: out :: rest)))
      <->
      forall pattern, In pattern exclude_patterns ->
                      ~ occurs_in pattern (normalize (e_rel e)))) /\
  (forall pyc py,
     fs root_dir "backend"
     = Dir [mk_entry pyc "backend/x.pyc" true;
            mk_entry py "backend/x.py" true] ->
     (forall include_item, include_item <> "backend" ->
                           fs root_dir include_item = Missing) ->
     arcnames (actions (main fs (prog :: root_dir :: out :: rest)))
     = ["backend/x.py"]).
Proof.
  split.
  - intros item below e Hitem Hdir He Hfile.
    rewrite <- should_exclude_false.
    change (actions (main fs (prog :: root_dir :: out :: rest)))
      with (flat_map (add_item fs root_dir) include
            ++ [Print "ZIP created successfully"]).
    rewrite in_app_iff, in_flat_map. split.
    + intros [(item' & Hi' & Hw) | [H | []]]; [|discriminate H].
      unfold add_item in Hw. destruct (fs root_dir item') as [|path|below'].
      * destruct Hw.
      * destruct Hw as [[= _ E] | [H | []]]; [|discriminate H].
        rewrite <- E. now apply include_not_excluded.
      * apply in_flat_map in Hw as (e' & _ & Hw).
        apply add_entry_writes in Hw as (_ & _ & E & X). now rewrite E.
    + intros X. left. exists item. split; [exact Hitem|].
      unfold add_item. rewrite Hdir. apply in_flat_map. exists e.
      split; [exact He|]. now apply add_entry_writes.
  - intros pyc py Hb Hm. simpl. unfold add_item.
    rewrite Hb, !Hm by discriminate. reflexivity.
Qed.

(** C8 at work on a tree with a cache directory, [x.pyc] and [x.py]. *)
Lemma C8_archive_contents_witness :
  let run := main backend_tree ["build_zip.py"; "/src"; "out.zip"] in
  (In (ZWrite "/src/backend/x.py" "backend/x.py") (actions run) /\
   ~ In (ZWrite "/src/backend/x.pyc" "backend/x.pyc") (actions run)) /\
  arcnames (actions run) = ["backend/x.py"] /\ exit_code run = 0.
Proof.
  intro run.
  pose proof (C8_archive_contents backend_tree "build_zip.py" "/src"
                "out.zip" []) as [Hiff _].
  split; [split|split; reflexivity].
  - apply (proj2 (Hiff "backend" _
                    (mk_entry "/src/backend/x.py" "backend/x.py" true)
                    (or_introl eq_refl) eq_refl
                    (or_intror (or_intror (or_introl eq_refl))) eq_refl)).
    apply (proj1 (should_exclude_false _ _)). reflexivity.
  - intros Hin.
    pose proof (proj1 (Hiff "backend" _
                         (mk_entry "/src/backend/x.pyc" "backend/x.pyc" true)
                         (or_introl eq_refl) eq_refl
                         (or_intror (or_introl eq_refl)) eq_refl) Hin) as X.
    apply (proj2 (should_exclude_false _ _)) in X.
    vm_compute in X. discriminate X.
Defined.

End BuildZipFacts.

(* ================================================================= *)
(** ** The version reader *)

Module GetVersionFacts.
Import GetVersion.

(** Three manifests: with a version, without one, and cut short. *)
Definition manifest_full : string :=
  "{" +++ PyStr.quoted "name" +++ ": " +++ PyStr.quoted "luatools" +++ ", "
  +++ PyStr.quoted "version" +++ ": " +++ PyStr.quoted "1.2.3" +++ "}".

Definition manifest_no_version : string :=
  "{" +++ PyStr.quoted "name" +++ ": " +++ PyStr.quoted "luatools" +++ "}".

Definition manifest_broken : string := "{" +++ PyStr.quoted "version" +++ ": ".

(** Surroundings with one manifest, of the given text, in [/plugin]. *)
Definition one_manifest (text : string) : Env :=
  mk_Env JsonRef.pylib
    (fun a b => a +++ "/" +++ b)
    (fun p =>
       if String.eqb p "/plugin/plugin.json" then Ok text
       else Raise (mk_exn OSError "No such file or directory")).

(** C9.  Given a directory whose [plugin.json] reads and decodes to an
    object, the reader prints the value of [version] -- a text as it is,
    "1.2.3" for the manifest [{"version": "1.2.3"}] -- or "unknown" when the
    object has no such field, and exits with 0.  When the file cannot be
    read, when its text does not decode, or when it decodes to something
    that is no object, the reader prints "unknown" and exits with 1.  In
    every case [main] ends with a line printed and an exit code. *)
Theorem C9_version_reader (env : Env) (prog dir : string)
  (rest : list string) :
  let plugin_path := path_join env dir "plugin.json" in
  let run := main env (prog :: dir :: rest) in
  (forall text d,
     read_text env plugin_path = Ok text ->
     json_loads (lib env) text = Ok (PDict d) ->
     (forall v, Py.lookup "version" d = Some v ->
                run = ([py_str (lib env) v], 0)) /\
     (forall s, Py.lookup "version" d = Some (PStr s) -> run = ([s], 0)) /\
     (Py.lookup "version" d = None -> run = (["unknown"], 0)) /\
     (d = [("version", PStr "1.2.3")] -> run = (["1.2.3"], 0))) /\
  (forall e, read_text env plugin_path = Raise e -> run = (["unknown"], 1)) /\
  (forall text e,
     read_text env plugin_path = Ok text ->
     json_loads (lib env) text = Raise e -> run = (["unknown"], 1)) /\
  (forall text v,
     read_text env plugin_path = Ok text ->
     json_loads (lib env) text = Ok v ->
     (forall d, v <> PDict d) -> run = (["unknown"], 1)) /\
  (exists line code, run = ([line], code)).
Proof.
  intros plugin_path run. subst run. unfold main, read_version.
  fold plugin_path. split; [|split; [|split; [|split]]].
  - intros text d Ht Hd. rewrite Ht. cbn [rbind]. rewrite Hd. cbn [rbind].
    unfold Py.get. cbn [rbind]. repeat split.
    + intros v Hv. now rewrite Hv.
    + intros s Hs. now rewrite Hs.
    + intros Hn. now rewrite Hn.
    + intros ->. reflexivity.
  - intros e He. now rewrite He.
  - intros text e Ht He. rewrite Ht. cbn [rbind]. now rewrite He.
  - intros text v Ht Hv Hd. rewrite Ht. cbn [rbind]. rewrite Hv. cbn [rbind].
    destruct v; try reflexivity. now destruct (Hd d).
  - destruct (read_text env plugin_path) as [text|e]; cbn [rbind]; [|eauto].
    destruct (json_loads (lib env) text) as [v|e]; cbn [rbind]; [|eauto].
    destruct (Py.get v "version" (PStr "unknown")); cbn [rbind]; eauto.
Qed.

(** C9 at work: a manifest with a version, one without, a broken one and a
    missing one. *)
Lemma C9_version_reader_witness :
  main (one_manifest manifest_full)
    ["get_version.py"; "/plugin"] = (["1.2.3"], 0) /\
  main (one_manifest manifest_no_version)
    ["get_version.py"; "/plugin"] = (["unknown"], 0) /\
  main (one_manifest manifest_broken)
    ["get_version.py"; "/plugin"] = (["unknown"], 1) /\
  main (one_manifest "{}") ["get_version.py"; "/elsewhere"]
  = (["unknown"], 1).
Proof.
  repeat apply conj.
  - exact (proj1 (proj2 (proj1
             (C9_version_reader
                (one_manifest manifest_full)
                "get_version.py" "/plugin" [])
             _ _ eq_refl eq_refl)) "1.2.3" eq_refl).
  - exact (proj1 (proj2 (proj2 (proj1
             (C9_version_reader (one_manifest manifest_no_version)
                "get_version.py" "/plugin" [])
             _ _ eq_refl eq_refl))) eq_refl).
  - exact (proj1 (proj2 (proj2
             (C9_version_reader (one_manifest manifest_broken)
                "get_version.py" "/plugin" [])))
             _ _ eq_refl eq_refl).
  - exact (proj1 (proj2
             (C9_version_reader (one_manifest "{}")
                "get_version.py" "/elsewhere" []))
             _ eq_refl).
Defined.

End GetVersionFacts.

(* ================================================================= *)
(** ** More on the bulk importer *)

Module ImporterMore.
Import PyStr PyStrFacts Achievements InvokerFacts ImporterFacts.

(** *** Trimming *)

Lemma rstrip_idempotent (s : string) : rstrip (rstrip s) = rstrip s.
Proof.
  induction s as [|c r IH]; simpl; [reflexivity|].
  destruct (rstrip r) as [|d r'] eqn:R.
  - destruct (isspace c) eqn:Sp; simpl; [reflexivity|]. now rewrite Sp.
  - simpl. simpl in IH. now rewrite IH.
Qed.

(** What [lstrip] leaves is empty or starts with a character that is no
    space. *)
Lemma lstrip_head (s : string) :
  lstrip s = "" \/ exists c r, lstrip s = String c r /\ isspace c = false.
Proof.
  induction s as [|c r IH]; simpl; [now left|].
  destruct (isspace c) eqn:Sp; [exact IH | right; eauto].
Qed.

Lemma rstrip_head (c : ascii) (r : string) :
  isspace c = false -> exists r', rstrip (String c r) = String c r'.
Proof.
  intros Sp. simpl. destruct (rstrip r); [rewrite Sp|]; eauto.
Qed.

(** Trimming a trimmed text changes nothing. *)
Lemma strip_idempotent (s : string) : strip (strip s) = strip s.
Proof.
  unfold strip. destruct (lstrip_head s) as [-> | (c & r & -> & Sp)].
  - reflexivity.
  - destruct (rstrip_head c r Sp) as [r' E]. rewrite E.
    simpl lstrip. rewrite Sp, <- E. apply rstrip_idempotent.
Qed.

(** *** The two formats *)

(** The identifiers of a list of texts: trimmed, the empty ones dropped. *)
Definition text_ids (texts : list string) : list string :=
  filter (fun s => negb (String.eqb s "")) (map strip texts).

Lemma stripped_entry_texts (texts : list string) :
  comprehension stripped_entry (map PStr texts) = Ok (text_ids texts).
Proof.
  unfold text_ids. induction texts as [|s texts IH]; simpl; [reflexivity|].
  rewrite IH. unfold stripped_entry. simpl.
  now destruct (strip s =? "")%string.
Qed.

Lemma select_ids_texts (texts : list string) :
  texts <> [] ->
  select_ids (PList (map PStr texts)) =
  Ok (match text_ids texts with
      | [] => Return (error_result "No unlocked achievements found in backup")
      | ids => Continue ids
      end).
Proof.
  intros Hne. destruct texts as [|s texts]; [congruence|].
  unfold select_ids. cbn [map]. change (PStr s :: map PStr texts)
    with (map PStr (s :: texts)).
  rewrite stripped_entry_texts. cbn [rbind].
  now destruct (text_ids (s :: texts)).
Qed.

(** A text entry followed, somewhere, by an element that is no text. *)
Lemma stripped_entry_mixed (texts : list string) (v : pyval)
  (rest : list pyval) :
  (forall s, v <> PStr s) ->
  comprehension stripped_entry (map PStr texts ++ v :: rest)
  = Raise (Py.no_attribute v "strip").
Proof.
  intros Hv. induction texts as [|s texts IH]; simpl.
  - destruct v; try reflexivity. now destruct (Hv s).
  - rewrite IH. unfold stripped_entry. simpl.
    now destruct (strip s =? "")%string.
Qed.

(** A record followed, somewhere, by an element that is no record. *)
Lemma keep_unlocked_mixed (ds : list (list (string * pyval))) (v : pyval)
  (rest : list pyval) :
  (forall d, v <> PDict d) ->
  comprehension keep_unlocked (map PDict ds ++ v :: rest)
  = Raise (Py.no_attribute v "get").
Proof.
  intros Hv. induction ds as [|d ds IH]; simpl.
  - destruct v; try reflexivity. now destruct (Hv d).
  - rewrite IH. reflexivity.
Qed.

Lemma stripped_entry_some (v : pyval) (a : string) :
  stripped_entry v = Ok (Some a) ->
  exists s, v = PStr s /\ a = strip s /\ a <> "".
Proof.
  unfold stripped_entry. destruct v as [ | | | |s| | ]; try discriminate.
  cbn [Py.strip rbind].
  destruct (String.eqb_spec (strip s) "") as [E|N]; [discriminate|].
  intros [= <-]. exists s. now repeat split.
Qed.

(** Whatever the list, an identifier that reaches the loop is a trimmed
    text and not empty. *)
Lemma select_ids_trimmed (l : pyval) (ids : list string) :
  select_ids l = Ok (Continue ids) ->
  forall a, In a ids -> a <> "" /\ strip a = a.
Proof.
  intros H a Ha.
  assert (Hs : exists s, a = strip s /\ a <> "").
  { destruct l as [ | | | | |l| ]; try discriminate H.
    destruct l as [|first rest]; [discriminate H|].
    destruct first as [ | | | |s0| |d0]; try discriminate H.
    - unfold select_ids in H.
      destruct (comprehension stripped_entry (PStr s0 :: rest)) as [ys|e]
        eqn:C; cbn [rbind] in H; [|discriminate].
      destruct ys as [|y ys]; [discriminate|]. injection H as <-.
      destruct (comprehension_in _ _ _ C a Ha) as (v & _ & Fv).
      apply stripped_entry_some in Fv as (s & _ & E & N). eauto.
    - destruct (select_ids_only d0 rest ids H a Ha)
        as (d & s & _ & _ & _ & E & N). eauto. }
  destruct Hs as (s & -> & N). split; [exact N | apply strip_idempotent].
Qed.

Section Runs.

Variable lib : PyLib.
Variable T : Type.
Variable unlock : Z -> string -> M T pyval.

(** *** Pacing *)

(** One call per identifier and a pause of one second between two calls. *)
Fixpoint paced (appid : Z) (ids : list string) : list import_event :=
  match ids with
  | [] => []
  | a :: rest =>
      IUnlock appid a
      :: match rest with
         | [] => []
         | _ :: _ => ISleep 1 :: paced appid rest
         end
  end.

Definition is_sleep (ev : import_event) : bool := negb (is_unlock ev).

Lemma expected_trace_paced (appid : Z) (ids : list string) :
  forall i,
    expected_trace appid (i + Z.of_nat (List.length ids) - 1) i ids
    = paced appid ids.
Proof.
  induction ids as [|a rest IH]; intros i; [reflexivity|].
  cbn [expected_trace paced]. f_equal.
  replace (i + Z.of_nat (List.length (a :: rest)) - 1)
    with (i + 1 + Z.of_nat (List.length rest) - 1)
    by (cbn [List.length]; lia).
  rewrite IH. destruct rest as [|b rest].
  - cbn [List.length]. destruct (Z.ltb_spec i (i + 1 + Z.of_nat 0 - 1)); [lia|].
    reflexivity.
  - destruct (Z.ltb_spec i (i + 1 + Z.of_nat (List.length (b :: rest)) - 1))
      as [_|Hge]; [reflexivity|].
    cbn [List.length] in Hge. lia.
Qed.

Lemma paced_sleeps (appid : Z) (ids : list string) :
  List.length (filter is_sleep (paced appid ids))
  = (List.length ids - 1)%nat.
Proof.
  induction ids as [|a rest IH]; [reflexivity|].
  cbn [paced]. destruct rest as [|b rest]; [reflexivity|].
  cbn [filter is_sleep is_unlock negb List.length] in *.
  rewrite IH. lia.
Qed.

(** The events of an import that reaches its loop are the calls, in
    order, with a pause of one second between consecutive calls and none
    after the last: [N] identifiers make [N - 1] pauses. *)
Theorem import_is_paced (appid l : pyval) (t : T) (z : Z)
  (ids : list string) :
  py_int lib appid = Ok z ->
  select_ids l = Ok (Continue ids) ->
  let tr := snd (import_achievements lib T unlock appid l t) in
  tr = paced z ids /\
  List.length (filter is_sleep tr) = (List.length ids - 1)%nat.
Proof.
  intros Hz Hsel tr. subst tr.
  rewrite (import_reaches_loop _ _ _ _ _ _ _ _ Hz Hsel). cbn [snd].
  replace (Z.of_nat (List.length ids))
    with (1 + Z.of_nat (List.length ids) - 1) by lia.
  rewrite expected_trace_paced. split; [reflexivity | apply paced_sleeps].
Qed.

(** *** The list of texts *)

(** For a non-empty list of texts, unlock-one is attempted on the trimmed
    entries that are not empty, in input order and with repetitions kept. *)
Theorem import_text_list (appid : pyval) (texts : list string) (t : T)
  (z : Z) :
  py_int lib appid = Ok z ->
  texts <> [] ->
  filter is_unlock
    (snd (import_achievements lib T unlock appid (PList (map PStr texts)) t))
  = map (IUnlock z) (text_ids texts).
Proof.
  intros Hz Hne. rewrite (trace_calls lib T unlock _ _ _ z Hz).
  rewrite (select_ids_texts texts Hne). now destruct (text_ids texts).
Qed.

(** A list in which an element of the wrong type follows texts, or
    records, is refused as a whole: the answer carries the
    [AttributeError], and nothing is called, not even for the elements
    before it. *)
Theorem import_mixed_list (appid : pyval) (t : T) (z : Z) (v : pyval)
  (rest : list pyval) :
  py_int lib appid = Ok z ->
  (forall (s : string) (texts : list string),
     (forall s', v <> PStr s') ->
     import_achievements lib T unlock appid
       (PList (map PStr (s :: texts) ++ v :: rest)) t
     = (Ok (error_result ("'" +++ Py.type_name v
                          +++ "' object has no attribute 'strip'")), t, []))
  /\
  (forall (d : list (string * pyval)) (ds : list (list (string * pyval))),
     (forall d', v <> PDict d') ->
     import_achievements lib T unlock appid
       (PList (map PDict (d :: ds) ++ v :: rest)) t
     = (Ok (error_result ("'" +++ Py.type_name v
                          +++ "' object has no attribute 'get'")), t, [])).
Proof.
  intros Hz. split.
  - intros s texts Hv.
    apply (import_raises lib T unlock appid _ t (Py.no_attribute v "strip")).
    right. split; [eauto|]. unfold select_ids.
    change (match map PStr (s :: texts) ++ v :: rest with
            | [] => _ | first_item :: _ => _ end)
      with (let* achievement_ids :=
              comprehension stripped_entry
                (map PStr (s :: texts) ++ v :: rest) in
            Ok (Continue achievement_ids)).
    now rewrite (stripped_entry_mixed (s :: texts) v rest Hv).
  - intros d ds Hv.
    apply (import_raises lib T unlock appid _ t (Py.no_attribute v "get")).
    right. split; [eauto|]. unfold select_ids.
    change (match map PDict (d :: ds) ++ v :: rest with
            | [] => _ | first_item :: _ => _ end)
      with (let* unlocked_to_import :=
              comprehension keep_unlocked
                (map PDict (d :: ds) ++ v :: rest) in
            let* achievement_ids :=
              comprehension stripped_id unlocked_to_import in
            Ok (Continue achievement_ids)).
    now rewrite (keep_unlocked_mixed (d :: ds) v rest Hv).
Qed.

(** When the filtering leaves no identifier -- a list of blank texts, or
    legacy records none of which is unlocked with an identifier -- the
    answer is "No unlocked achievements found in backup" and nothing is
    called. *)
Theorem import_nothing_selected (appid : pyval) (t : T) (z : Z) :
  py_int lib appid = Ok z ->
  (forall texts,
     texts <> [] -> text_ids texts = [] ->
     import_achievements lib T unlock appid (PList (map PStr texts)) t
     = (Ok (error_result "No unlocked achievements found in backup"), t, []))
  /\
  (forall l,
     l <> [] -> forallb is_legacy_entry l = true -> legacy_ids l = [] ->
     import_achievements lib T unlock appid (PList l) t
     = (Ok (error_result "No unlocked achievements found in backup"), t, [])).
Proof.
  intros Hz. split.
  - intros texts Hne Hids. apply (import_returns_early _ _ _ _ _ _ z); trivial.
    now rewrite (select_ids_texts texts Hne), Hids.
  - intros l Hne Hall Hids. apply (import_returns_early _ _ _ _ _ _ z); trivial.
    now rewrite (select_ids_legacy l Hne Hall), Hids.
Qed.

(** Whatever list is given, unlock-one is only ever called with the
    coerced [appid] and with an identifier that is not empty and has no
    white space at either end. *)
Theorem import_calls_trimmed (appid l : pyval) (t : T) (z : Z) :
  py_int lib appid = Ok z ->
  forall a0 a,
    In (IUnlock a0 a) (snd (import_achievements lib T unlock appid l t)) ->
    a0 = z /\ a <> "" /\ strip a = a.
Proof.
  intros Hz a0 a Hin.
  assert (Hf : In (IUnlock a0 a)
                 (filter is_unlock
                    (snd (import_achievements lib T unlock appid l t)))).
  { apply filter_In. now split. }
  rewrite (trace_calls lib T unlock _ _ _ z Hz) in Hf.
  destruct (select_ids l) as [[r|ids]|e] eqn:Hsel; try now destruct Hf.
  apply in_map_iff in Hf as (a' & [= <- <-] & Ha).
  split; [reflexivity|]. exact (select_ids_trimmed l ids Hsel a' Ha).
Qed.

End Runs.

(** Pacing at work: three identifiers, two pauses. *)
Lemma import_is_paced_witness :
  snd (import_achievements JsonRef.pylib nat unlock_ok (PInt 480)
         (PList [PStr "ach1"; PStr "ach2"; PStr "ach3"]) 0%nat)
  = [IUnlock 480 "ach1"; ISleep 1; IUnlock 480 "ach2"; ISleep 1;
     IUnlock 480 "ach3"].
Proof.
  exact (proj1 (import_is_paced JsonRef.pylib nat unlock_ok (PInt 480)
                  (PList [PStr "ach1"; PStr "ach2"; PStr "ach3"]) 0%nat 480
                  ["ach1"; "ach2"; "ach3"] eq_refl eq_refl)).
Defined.

(** A list of texts at work: padding is trimmed, a blank entry is dropped,
    a repeated one is attempted twice. *)
Lemma import_text_list_witness :
  filter is_unlock
    (snd (import_achievements JsonRef.pylib nat unlock_ok (PInt 480)
            (PList (map PStr [" ach1 "; "   "; "ach2"; "ach1"])) 0%nat))
  = [IUnlock 480 "ach1"; IUnlock 480 "ach2"; IUnlock 480 "ach1"].
Proof.
  refine (import_text_list JsonRef.pylib nat unlock_ok (PInt 480)
            [" ach1 "; "   "; "ach2"; "ach1"] 0%nat 480 eq_refl _).
  discriminate.
Defined.

(** A mixed list at work: a number after a text. *)
Lemma import_mixed_list_witness :
  import_achievements JsonRef.pylib nat unlock_ok (PInt 480)
    (PList [PStr "ach1"; PInt 7; PStr "ach2"]) 0%nat
  = (Ok (error_result "'int' object has no attribute 'strip'"), 0%nat, []).
Proof.
  refine (proj1 (import_mixed_list JsonRef.pylib nat unlock_ok (PInt 480)
                   0%nat 480 (PInt 7) [PStr "ach2"] eq_refl)
            "ach1" [] _).
  discriminate.
Defined.

(** Nothing selected at work: a backup in which nothing is unlocked. *)
Lemma import_nothing_selected_witness :
  import_achievements JsonRef.pylib nat unlock_ok (PInt 480)
    (PList [PDict [("id", PStr "a"); ("unlocked", PBool false)];
            PDict [("id", PStr "  "); ("unlocked", PBool true)]]) 0%nat
  = (Ok (error_result "No unlocked achievements found in backup"), 0%nat, []).
Proof.
  refine (proj2 (import_nothing_selected JsonRef.pylib nat unlock_ok (PInt 480)
                   0%nat 480 eq_refl)
            [PDict [("id", PStr "a"); ("unlocked", PBool false)];
             PDict [("id", PStr "  "); ("unlocked", PBool true)]]
            _ eq_refl eq_refl).
  discriminate.
Defined.

(** Trimmed calls at work. *)
Lemma import_calls_trimmed_witness :
  480 = 480 /\ "ach1" <> "" /\ strip "ach1" = "ach1".
Proof.
  refine (import_calls_trimmed JsonRef.pylib nat unlock_ok (PInt 480)
            (PList [PStr " ach1 "]) 0%nat 480 eq_refl 480 "ach1" _).
  left. reflexivity.
Defined.

End ImporterMore.

(* ================================================================= *)
(** ** More on the invoker *)

Module InvokerMore.
Import PyStr PyStrFacts Achievements InvokerFacts ImporterFacts.

(** *** One process for each call *)

(** With the tool in place a call asks for the plugin directory, looks
    for the tool and starts it once, with the tool's path, the verb,
    [str(appid)] and the further arguments as its command line --
    whatever the process then does or prints. *)
Theorem run_starts_one_process env command appid args h plugin_dir :
  get_plugin_dir env h = Ok plugin_dir ->
  path_exists env (h ++ [EvPluginDir]) (sam_cli_path env plugin_dir) = true ->
  snd (_run_sam_cli env command appid args h)
  = h ++ [EvPluginDir; EvExists (sam_cli_path env plugin_dir);
          EvPopen (cmd_line env plugin_dir command appid args) (flags env)]
  /\ spawned (snd (_run_sam_cli env command appid args h))
     = spawned h
       ++ [EvPopen (cmd_line env plugin_dir command appid args) (flags env)].
Proof.
  intros Hd Hx.
  assert (E : snd (_run_sam_cli env command appid args h)
              = h ++ [EvPluginDir; EvExists (sam_cli_path env plugin_dir);
                      EvPopen (cmd_line env plugin_dir command appid args)
                        (flags env)]).
  { unfold _run_sam_cli, try_except, run_sam_cli_body, bind,
      call_get_plugin_dir, call_path_exists, call_popen, lift_result, ret.
    rewrite Hd. fold (sam_cli_path env plugin_dir). rewrite Hx.
    change (negb true) with false. cbv beta iota.
    fold (cmd_line env plugin_dir command appid args). fold (flags env).
    destruct (popen_communicate env _ _ _) as [out|e]; cbn [snd fst].
    - destruct (parse_stdout env (decode_stdout env (fst out)));
        cbn [snd]; now rewrite <- !List.app_assoc.
    - now rewrite <- !List.app_assoc. }
  split; [exact E|]. rewrite E, spawned_app. reflexivity.
Qed.

(** The tool is in place whenever it is looked for. *)
Definition always_installed (env : Env) (plugin_dir : string) : Prop :=
  forall h,
    get_plugin_dir env h = Ok plugin_dir /\
    path_exists env (h ++ [EvPluginDir]) (sam_cli_path env plugin_dir) = true.

(** The command line of unlock-one. *)
Definition unlock_line (env : Env) (plugin_dir : string) (appid : Z)
  (ach_id : string) : tool_event :=
  EvPopen [sam_cli_path env plugin_dir; "unlock"; PyStr.of_Z appid; ach_id]
    (flags env).

Lemma final_tool_spawned env plugin_dir (z : Z) (ids : list string) :
  always_installed env plugin_dir ->
  forall h,
    spawned (final_tool history (unlock_by_sam env) z ids h)
    = spawned h ++ map (unlock_line env plugin_dir z) ids.
Proof.
  intros Hin. induction ids as [|a rest IH]; intros h.
  - simpl. now rewrite app_nil_r.
  - cbn [final_tool map]. rewrite IH.
    destruct (Hin h) as [Hd Hx].
    destruct (run_starts_one_process env "unlock" (PInt z) [PStr a] h
                plugin_dir Hd Hx) as [_ S].
    change (_run_sam_cli env "unlock" (PInt z) [PStr a] h)
      with (unlock_by_sam env z a h) in S.
    rewrite S, <- List.app_assoc. reflexivity.
Qed.

(** With the tool in place, an import that reaches its loop starts one
    process for each identifier, in input order, each with the command
    line [<tool> unlock <appid> <id>] -- whatever the answers are. *)
Theorem import_starts_one_process_each env plugin_dir appid l h z ids :
  always_installed env plugin_dir ->
  py_int (lib env) appid = Ok z ->
  select_ids l = Ok (Continue ids) ->
  spawned (snd (fst (import_achievements_sam env appid l h)))
  = spawned h ++ map (unlock_line env plugin_dir z) ids.
Proof.
  intros Hin Hz Hsel. unfold import_achievements_sam.
  rewrite (import_reaches_loop _ _ _ _ _ _ _ _ Hz Hsel). cbn [fst snd].
  now apply final_tool_spawned.
Qed.

(** *** A tool that answers every call alike *)

(** Every process started prints the same text. *)
Definition always_prints (env : Env) (stdout : string) : Prop :=
  forall h cmd_args creationflags,
    exists out err,
      popen_communicate env h cmd_args creationflags = Ok (out, err) /\
      decode_stdout env out = stdout.

Lemma unlock_by_sam_prints env plugin_dir stdout (v : pyval) z a h :
  always_installed env plugin_dir ->
  always_prints env stdout ->
  parse_stdout env stdout = Ok v ->
  fst (unlock_by_sam env z a h) = Ok v.
Proof.
  intros Hin Hpr Hv. unfold unlock_by_sam, unlock_achievement.
  rewrite (run_prints env h "unlock" (PInt z) [PStr a] stdout).
  - now rewrite Hv.
  - destruct (Hin h) as [Hd Hx].
    destruct (Hpr ((h ++ [EvPluginDir])
                   ++ [EvExists (sam_cli_path env plugin_dir)])
                (cmd_line env plugin_dir "unlock" (PInt z) [PStr a])
                (flags env)) as (out & err & Hp & Hs).
    now exists plugin_dir, out, err.
Qed.

Lemma verdicts_alike env plugin_dir stdout (v : pyval) (z : Z)
  (ids : list string) :
  always_installed env plugin_dir ->
  always_prints env stdout ->
  parse_stdout env stdout = Ok v ->
  forall h,
    verdicts (lib env) history (unlock_by_sam env) z ids h
    = map (fun a => judge (lib env) a (Ok v)) ids.
Proof.
  intros Hin Hpr Hv. induction ids as [|a rest IH]; intros h;
    [reflexivity|].
  cbn [verdicts map].
  pose proof (unlock_by_sam_prints env plugin_dir stdout v z a h Hin Hpr Hv)
    as E.
  destruct (unlock_by_sam env z a h) as [r h']. cbn [fst] in E. subst r.
  now rewrite IH.
Qed.

(** With the tool in place and printing, for every call, an object whose
    [success] holds, an import that reaches its loop with [N] identifiers
    imports all of them: [success] true, [imported] [N], [failed] 0 and no
    [failed_details]. *)
Theorem import_all_unlocked env plugin_dir stdout d ok appid l h z ids :
  always_installed env plugin_dir ->
  always_prints env stdout ->
  parse_stdout env stdout = Ok (PDict d) ->
  Py.lookup "success" d = Some ok -> Py.truthy ok = true ->
  py_int (lib env) appid = Ok z ->
  select_ids l = Ok (Continue ids) ->
  let r := fst (fst (import_achievements_sam env appid l h)) in
  field "success" r = Some (PBool true) /\
  field "imported" r = Some (PInt (Z.of_nat (List.length ids))) /\
  field "failed" r = Some (PInt 0) /\
  field "failed_details" r = None.
Proof.
  intros Hin Hpr Hv Hok Htr Hz Hsel r. subst r.
  unfold import_achievements_sam.
  rewrite (import_reaches_loop _ _ _ _ _ _ _ _ Hz Hsel). cbn [fst].
  rewrite (verdicts_alike env plugin_dir stdout (PDict d) z ids Hin Hpr Hv).
  assert (J : map (fun a => judge (lib env) a (Ok (PDict d))) ids
              = map (fun _ => Imported) ids).
  { apply map_ext. intros a. unfold judge. now rewrite Hok, Htr. }
  rewrite J.
  assert (I : imported_of (map (fun _ : string => Imported) ids)
              = Z.of_nat (List.length ids)).
  { unfold imported_of. clear. induction ids as [|a ids IH];
      cbn [map filter is_imported List.length] in *; lia. }
  assert (F : failed_lines (map (fun _ : string => Imported) ids) = []).
  { clear. induction ids; simpl; trivial. }
  unfold failed_of. rewrite I, F. cbn [List.length].
  destruct (response_fields history (Z.of_nat (List.length ids))
              (mk_frame history
                 (final_tool history (unlock_by_sam env) z ids h)
                 (expected_trace z (Z.of_nat (List.length ids)) 1 ids)
                 (Z.of_nat (List.length ids)) (Z.of_nat 0) []))
    as (Fs & Fi & Ff & _ & Fd).
  cbn [imported_count failed_count failed_list] in Fs, Fi, Ff, Fd.
  rewrite Fs, Fi, Ff, Fd. repeat split.
  apply select_ids_nonempty in Hsel.
  destruct ids; [congruence|]. reflexivity.
Qed.

(** *** Outputs without an object *)

Lemma substring_none (s : string) :
  forall n, String.substring n 0 s = "".
Proof.
  induction s as [|c s IH]; intros [|n]; simpl; trivial.
Qed.

(** A slice whose end does not lie after its start is empty. *)
Lemma slice_empty (s : string) (a b : Z) :
  0 <= a -> 0 <= b -> b <= a -> slice s a b = "".
Proof.
  intros Ha Hb Hab. unfold slice, clamp.
  destruct (Z.ltb_spec a 0); [lia|]. destruct (Z.ltb_spec b 0); [lia|].
  replace (Z.to_nat (Z.min b (len s) - Z.min a (len s))) with 0%nat by lia.
  apply substring_none.
Qed.

(** What the tool's silence, or an output without an object, comes to.  An
    empty stdout is answered with "No output from SAM CLI"; a stdout that
    is not empty but lacks an opening or a closing brace (so also one of
    white space only) with "Invalid output from SAM CLI"; and when the last
    closing brace stands before the first opening one, it is the empty text
    that is handed to [json.loads], whose [JSONDecodeError] is answered
    with "Failed to parse SAM CLI output". *)
Theorem run_without_object env h command appid args stdout :
  tool_prints env h command appid args stdout ->
  let r := fst (_run_sam_cli env command appid args h) in
  let s := strip stdout in
  (stdout = "" -> r = Ok (error_result "No output from SAM CLI")) /\
  (stdout <> "" -> find "{" s = -1 \/ rfind "}" s = -1 ->
   r = Ok (error_result "Invalid output from SAM CLI")) /\
  (rfind "}" s <> -1 -> rfind "}" s < find "{" s ->
   json_span s = "" /\
   forall e, json_loads (lib env) "" = Raise e -> is_json_error e = true ->
             r = Ok (error_result "Failed to parse SAM CLI output")).
Proof.
  intros Hrun r s. subst r. rewrite (run_prints _ _ _ _ _ _ Hrun).
  unfold parse_stdout. fold s. split; [|split].
  - intros ->. reflexivity.
  - intros Hne Hb.
    destruct (String.eqb_spec stdout "") as [E|_]; [congruence|].
    cbn [negb]. destruct Hb as [-> | ->]; [reflexivity|].
    now rewrite andb_false_r.
  - intros Hr Hlt.
    pose proof (rfind_range "}" s) as [Hr'|Hr']; [congruence|].
    assert (Hsp : json_span s = "").
    { unfold json_span. apply slice_empty; lia. }
    split; [exact Hsp|]. intros e He Hj.
    destruct (String.eqb_spec stdout "") as [E|_].
    + subst stdout. subst s. now destruct Hr.
    + cbn [negb].
      destruct (Z.eqb_spec (find "{" s) (-1)) as [E|_]; [lia|].
      destruct (Z.eqb_spec (rfind "}" s) (-1)) as [E|_]; [lia|].
      cbn [negb andb]. fold (json_span s). rewrite Hsp, He, Hj. reflexivity.
Qed.

(** One process at work. *)
Lemma run_starts_one_process_witness :
  spawned (snd (unlock_achievement (fixed_env true success_text) (PInt 480)
                  (PStr "ACH_WIN") []))
  = [EvPopen ["/opt/luatools/vendor/SAM/SAM.CLI.exe"; "unlock"; "480";
              "ACH_WIN"] 0].
Proof.
  exact (proj2 (run_starts_one_process (fixed_env true success_text) "unlock"
                  (PInt 480) [PStr "ACH_WIN"] [] "/opt/luatools"
                  eq_refl eq_refl)).
Defined.

Lemma always_installed_fixed (stdout : string) :
  always_installed (fixed_env true stdout) "/opt/luatools".
Proof. intros h. split; reflexivity. Qed.

(** One process each at work: two identifiers, two processes. *)
Lemma import_starts_one_process_each_witness :
  spawned (snd (fst (import_achievements_sam (fixed_env true success_text)
                       (PInt 480) (PList [PStr "A"; PStr "B"]) [])))
  = [EvPopen ["/opt/luatools/vendor/SAM/SAM.CLI.exe"; "unlock"; "480"; "A"] 0;
     EvPopen ["/opt/luatools/vendor/SAM/SAM.CLI.exe"; "unlock"; "480"; "B"] 0].
Proof.
  exact (import_starts_one_process_each (fixed_env true success_text)
           "/opt/luatools" (PInt 480) (PList [PStr "A"; PStr "B"]) [] 480
           ["A"; "B"] (always_installed_fixed success_text)
           eq_refl eq_refl).
Defined.

Lemma always_prints_fixed (stdout : string) :
  forallb (fun x => (Byte.to_nat x <? 128)%nat) (list_byte_of_string stdout)
  = true ->
  always_prints (fixed_env true stdout) stdout.
Proof.
  intros H7 h cmd_args creationflags.
  exists (list_byte_of_string stdout), []. split; [reflexivity|].
  unfold decode_stdout. cbn [fixed_env is_win32 decode_utf8].
  unfold JsonRef.decode7. rewrite H7.
  now rewrite string_of_list_byte_of_string.
Qed.

(** All unlocked at work: two identifiers, the tool answering with
    success. *)
Lemma import_all_unlocked_witness :
  let r := fst (fst (import_achievements_sam (fixed_env true success_text)
                       (PInt 480) (PList [PStr "A"; PStr "B"]) [])) in
  field "success" r = Some (PBool true) /\
  field "imported" r = Some (PInt 2) /\
  field "failed" r = Some (PInt 0) /\
  field "failed_details" r = None.
Proof.
  exact (import_all_unlocked (fixed_env true success_text) "/opt/luatools"
           success_text [("success", PBool true)] (PBool true)
           (PInt 480) (PList [PStr "A"; PStr "B"]) [] 480 ["A"; "B"]
           (always_installed_fixed success_text)
           (always_prints_fixed success_text eq_refl)
           eq_refl eq_refl eq_refl eq_refl eq_refl).
Defined.

Lemma tool_prints_fixed (stdout : string) :
  forallb (fun x => (Byte.to_nat x <? 128)%nat) (list_byte_of_string stdout)
  = true ->
  tool_prints (fixed_env true stdout) [] "get-achievements" (PInt 480) []
    stdout.
Proof.
  intros H7. exists "/opt/luatools", (list_byte_of_string stdout), [].
  repeat split. unfold decode_stdout. cbn [fixed_env is_win32 decode_utf8].
  unfold JsonRef.decode7. rewrite H7.
  now rewrite string_of_list_byte_of_string.
Qed.

(** Outputs without an object at work: white space only, and braces the
    wrong way round. *)
Lemma run_without_object_witness :
  fst (_run_sam_cli (fixed_env true (String "010" "  ")) "get-achievements"
         (PInt 480) [] [])
  = Ok (error_result "Invalid output from SAM CLI") /\
  fst (_run_sam_cli (fixed_env true "done } {") "get-achievements"
         (PInt 480) [] [])
  = Ok (error_result "Failed to parse SAM CLI output").
Proof.
  split.
  - refine (proj1 (proj2 (run_without_object
                            (fixed_env true (String "010" "  ")) []
                            "get-achievements" (PInt 480) []
                            (String "010" "  ")
                            (tool_prints_fixed (String "010" "  ")
                               eq_refl))) _ _).
    + discriminate.
    + left. reflexivity.
  - refine (proj2 (proj2 (proj2 (run_without_object
                                   (fixed_env true "done } {") []
                                   "get-achievements" (PInt 480) []
                                   "done } {"
                                   (tool_prints_fixed "done } {" eq_refl)))
                           _ _)
              _ eq_refl eq_refl).
    + discriminate.
    + reflexivity.
Defined.

End InvokerMore.

(* ================================================================= *)
(** ** More on the packaging script *)

Module BuildZipMore.
Import PyStr PyStrFacts BuildZip BuildZipFacts.

(** The lines printed, in order. *)
Fixpoint printed (l : list action) : list string :=
  match l with
  | [] => []
  | Print line :: r => line :: printed r
  | ZWrite _ _ :: r => printed r
  end.

Lemma arcnames_app (l l' : list action) :
  arcnames (l ++ l') = arcnames l ++ arcnames l'.
Proof.
  induction l as [|[f n|line] l IH]; simpl; [reflexivity| |exact IH].
  now rewrite IH.
Qed.

Lemma printed_app (l l' : list action) :
  printed (l ++ l') = printed l ++ printed l'.
Proof.
  induction l as [|[f n|line] l IH]; simpl; [reflexivity|exact IH|].
  now rewrite IH.
Qed.

Lemma arcnames_in (name : string) (l : list action) :
  In name (arcnames l) <-> exists filename, In (ZWrite filename name) l.
Proof.
  induction l as [|[f n|line] l IH]; simpl.
  - split; [tauto | intros [? []]].
  - rewrite IH. split.
    + intros [-> | [f' H]]; [exists f; now left | exists f'; now right].
    + intros [f' [[= _ ->] | H]]; [now left | right; now exists f'].
  - rewrite IH. split.
    + intros [f' H]. exists f'. now right.
    + intros [f' [H | H]]; [discriminate H | now exists f'].
Qed.

(** *** What the archive lists *)

(** The names one include item contributes, in the specification's words:
    nothing when it is missing, its own name when it is no directory, and
    for a directory the normalized relative paths of the files below it
    that no deny substring occurs in. *)
Definition item_names (fs : tree) (root_dir include_item : string)
  : list string :=
  match fs root_dir include_item with
  | Missing => []
  | NotDir _ => [normalize include_item]
  | Dir below =>
      filter (fun n => negb (should_exclude n exclude_patterns))
        (map (fun e => normalize (e_rel e)) (filter e_is_file below))
  end.

Definition plus_line (name : string) : string := "  + " +++ name.

Lemma add_entry_one (e : entry) :
  arcnames (add_entry e)
  = filter (fun n => negb (should_exclude n exclude_patterns))
      (map (fun e => normalize (e_rel e)) (filter e_is_file [e]))
  /\ printed (add_entry e) = map plus_line (arcnames (add_entry e)).
Proof.
  unfold add_entry. cbn [filter]. destruct (e_is_file e); cbn [map filter].
  - destruct (should_exclude (normalize (e_rel e)) exclude_patterns);
      split; reflexivity.
  - split; reflexivity.
Qed.

Lemma add_entry_names (below : list entry) :
  arcnames (flat_map add_entry below)
  = filter (fun n => negb (should_exclude n exclude_patterns))
      (map (fun e => normalize (e_rel e)) (filter e_is_file below))
  /\ printed (flat_map add_entry below)
     = map plus_line (arcnames (flat_map add_entry below)).
Proof.
  induction below as [|e below [IHa IHp]]; [split; reflexivity|].
  destruct (add_entry_one e) as [Ha Hp].
  cbn [flat_map]. rewrite !arcnames_app, printed_app, map_app, Hp, IHp.
  split; [|reflexivity]. rewrite Ha, IHa.
  change (e :: below) with ([e] ++ below).
  now rewrite filter_app, map_app, filter_app.
Qed.

Lemma add_item_names (fs : tree) (root_dir include_item : string) :
  arcnames (add_item fs root_dir include_item)
  = item_names fs root_dir include_item
  /\ printed (add_item fs root_dir include_item)
     = map plus_line (arcnames (add_item fs root_dir include_item)).
Proof.
  unfold add_item, item_names.
  destruct (fs root_dir include_item) as [|path|below].
  - split; reflexivity.
  - split; reflexivity.
  - apply add_entry_names.
Qed.

Lemma add_items_names (fs : tree) (root_dir : string) (items : list string) :
  arcnames (flat_map (add_item fs root_dir) items)
  = flat_map (item_names fs root_dir) items
  /\ printed (flat_map (add_item fs root_dir) items)
     = map plus_line (arcnames (flat_map (add_item fs root_dir) items)).
Proof.
  induction items as [|item items [IHa IHp]]; [split; reflexivity|].
  destruct (add_item_names fs root_dir item) as [Ha Hp].
  cbn [flat_map]. rewrite !arcnames_app, printed_app, map_app, Hp, IHp.
  split; [|reflexivity]. now rewrite Ha, IHa.
Qed.

(** The archive lists, for the include items in their fixed order, what
    each contributes: for a directory the files below it in the order met,
    under their normalized names, the excluded ones left out. *)
Theorem archive_listing (fs : tree) (prog root_dir out : string)
  (rest : list string) :
  arcnames (actions (main fs (prog :: root_dir :: out :: rest)))
  = flat_map (item_names fs root_dir) include.
Proof.
  change (actions (main fs (prog :: root_dir :: out :: rest)))
    with (flat_map (add_item fs root_dir) include
          ++ [Print "ZIP created successfully"]).
  rewrite arcnames_app. cbn [arcnames]. rewrite app_nil_r.
  apply add_items_names.
Qed.

(** What is printed is one line ["  + <name>"] for each entry written, in
    the order written, and then "ZIP created successfully". *)
Theorem printed_lines_follow_archive (fs : tree) (prog root_dir out : string)
  (rest : list string) :
  let run := main fs (prog :: root_dir :: out :: rest) in
  printed (actions run)
  = map plus_line (arcnames (actions run)) ++ ["ZIP created successfully"].
Proof.
  intro run. subst run.
  change (actions (main fs (prog :: root_dir :: out :: rest)))
    with (flat_map (add_item fs root_dir) include
          ++ [Print "ZIP created successfully"]).
  rewrite arcnames_app, printed_app. cbn [arcnames printed].
  rewrite app_nil_r. f_equal. apply add_items_names.
Qed.

(** *** What the archive never holds *)

Lemma normalize_no_backslash (s : string) : contains "\" (normalize s) = false.
Proof.
  induction s as [|c s IH]; [reflexivity|].
  cbn [normalize replace contains startswith]. fold (normalize s).
  rewrite IH. destruct (Ascii.eqb_spec c "\") as [->|N]; [reflexivity|].
  destruct (Ascii.eqb_spec "\"%char c) as [E|_]; [now destruct N|].
  reflexivity.
Qed.

(** Whatever the tree and the arguments, no entry name of the archive
    holds a backslash, and in none does a deny substring occur. *)
Theorem archive_names_clean (fs : tree) (argv : list string) (name : string) :
  In name (arcnames (actions (main fs argv))) ->
  contains "\" name = false /\
  forall pattern, In pattern exclude_patterns -> ~ occurs_in pattern name.
Proof.
  intros Hin. rewrite <- should_exclude_false.
  assert (Hw : exists item, In item include /\
                 In name (arcnames (add_item fs (nth 1 argv "") item))).
  { destruct argv as [|a0 [|a1 [|a2 rest]]]; try now destruct Hin.
    change (actions (main fs (a0 :: a1 :: a2 :: rest)))
      with (flat_map (add_item fs a1) include
            ++ [Print "ZIP created successfully"]) in Hin.
    rewrite arcnames_app in Hin. cbn [arcnames] in Hin.
    rewrite app_nil_r in Hin.
    apply arcnames_in in Hin as [f Hf].
    apply in_flat_map in Hf as (item & Hi & Hf).
    exists item. split; [exact Hi|]. apply arcnames_in. now exists f. }
  destruct Hw as (item & Hi & Hn).
  apply arcnames_in in Hn as [f Hf]. unfold add_item in Hf.
  destruct (fs (nth 1 argv "") item) as [|path|below].
  - destruct Hf.
  - destruct Hf as [[= _ <-] | [H | []]]; [|discriminate H].
    split; [apply normalize_no_backslash | now apply include_not_excluded].
  - apply in_flat_map in Hf as (e & _ & Hf).
    apply add_entry_writes in Hf as (_ & _ & -> & X).
    split; [apply normalize_no_backslash | exact X].
Qed.

(** *** Exclusion *)

(** A path in which an excluded path occurs is excluded: what lies below
    an excluded directory is excluded with it. *)
Theorem exclusion_extends (path_str : string) (patterns : list string)
  (pre post : string) :
  should_exclude path_str patterns = true ->
  should_exclude (pre +++ path_str +++ post) patterns = true.
Proof.
  intros H. apply should_exclude_spec in H as (p & Hp & a & b & ->).
  apply should_exclude_spec. exists p. split; [exact Hp|].
  exists (pre +++ a), (b +++ post). now rewrite !app_assoc.
Qed.

(** *** Files at the top *)

Lemma include_normalized (item : string) :
  In item include -> normalize item = item.
Proof.
  intros H. repeat (destruct H as [<- | H]; [reflexivity|]). destruct H.
Qed.

(** An include item that exists and is no directory is written under its
    own name, without a look at the deny list; one that is missing
    contributes nothing. *)
Theorem top_level_items (fs : tree) (prog root_dir out : string)
  (rest : list string) (include_item : string) :
  In include_item include ->
  (forall path,
     fs root_dir include_item = NotDir path ->
     In (ZWrite path include_item)
        (actions (main fs (prog :: root_dir :: out :: rest)))) /\
  (fs root_dir include_item = Missing ->
   add_item fs root_dir include_item = []).
Proof.
  intros Hi. split.
  - intros path Hfs.
    change (actions (main fs (prog :: root_dir :: out :: rest)))
      with (flat_map (add_item fs root_dir) include
            ++ [Print "ZIP created successfully"]).
    apply in_or_app. left. apply in_flat_map. exists include_item.
    split; [exact Hi|]. unfold add_item. rewrite Hfs.
    rewrite (include_normalized _ Hi). now left.
  - intros Hfs. unfold add_item. now rewrite Hfs.
Qed.

(** *** The arguments *)

(** With fewer than two arguments after the program's name nothing is
    written, the usage line is printed and the exit code is 1; otherwise
    the archive is the second argument and the exit code is 0, even when
    nothing of the include list exists. *)
Theorem arguments_decide_exit (fs : tree) (argv : list string) :
  ((List.length argv < 3)%nat ->
   main fs argv
   = mk_outcome None [Print "Usage: build_zip.py <root_dir> <output_zip>"] 1)
  /\
  ((3 <= List.length argv)%nat ->
   exit_code (main fs argv) = 0 /\
   output_zip (main fs argv) = nth_error argv 2 /\
   ((forall item, fs (nth 1 argv "") item = Missing) ->
    actions (main fs argv) = [Print "ZIP created successfully"])).
Proof.
  destruct argv as [|a0 [|a1 [|a2 rest]]]; cbn [List.length]; split;
    try reflexivity; try lia.
  intros _. repeat split. intros Hm. cbn [nth] in Hm.
  change (actions (main fs (a0 :: a1 :: a2 :: rest)))
    with (flat_map (add_item fs a1) include
          ++ [Print "ZIP created successfully"]).
  unfold add_item. cbn [include flat_map]. now rewrite !Hm.
Qed.

(** Clean names at work, on the tree of C8's run. *)
Lemma archive_names_clean_witness :
  contains "\" "backend/x.py" = false /\
  forall pattern, In pattern exclude_patterns ->
                  ~ occurs_in pattern "backend/x.py".
Proof.
  refine (archive_names_clean backend_tree
            ["build_zip.py"; "/src"; "out.zip"] "backend/x.py" _).
  left. reflexivity.
Defined.

(** Exclusion at work: a file below a cache directory. *)
Lemma exclusion_extends_witness :
  should_exclude "backend/__pycache__/notes.txt" exclude_patterns = true.
Proof.
  exact (exclusion_extends "backend/__pycache__" exclude_patterns ""
           "/notes.txt" eq_refl).
Defined.

(** A tree with a manifest at the top and a data file below [backend]. *)
Definition manifest_tree (root_dir include_item : string) : node :=
  if String.eqb include_item "plugin.json"
  then NotDir (root_dir +++ "/plugin.json")
  else if String.eqb include_item "backend"
  then Dir [mk_entry (root_dir +++ "/backend/main.py") "backend\main.py" true;
            mk_entry (root_dir +++ "/backend/metadata.py")
              "backend\metadata.py" true]
  else Missing.

(** Files at the top at work. *)
Lemma top_level_items_witness :
  In (ZWrite "/src/plugin.json" "plugin.json")
     (actions (main manifest_tree ["build_zip.py"; "/src"; "out.zip"])).
Proof.
  exact (proj1 (top_level_items manifest_tree "build_zip.py" "/src" "out.zip"
                  [] "plugin.json" (or_intror (or_intror (or_introl eq_refl))))
           "/src/plugin.json" eq_refl).
Defined.

(** The whole run on that tree: [metadata.py] holds "data" and is left
    out. *)
Example manifest_tree_run :
  actions (main manifest_tree ["build_zip.py"; "/src"; "out.zip"])
  = [ZWrite "/src/backend/main.py" "backend/main.py";
     Print "  + backend/main.py";
     ZWrite "/src/plugin.json" "plugin.json";
     Print "  + plugin.json";
     Print "ZIP created successfully"].
Proof. reflexivity. Qed.

End BuildZipMore.

(* ================================================================= *)
(** ** More on the version reader *)

Module GetVersionMore.
Import GetVersion GetVersionFacts.

(** Whatever the arguments and the files, the reader prints one line and
    exits with 0 or 1; it exits with 0 exactly when a directory was given
    whose [plugin.json] could be read and decoded to an object; and when it
    exits with 1 the line is "unknown". *)
Theorem exit_code_tells (env : Env) (argv : list string) :
  let lines := fst (main env argv) in
  let code := snd (main env argv) in
  List.length lines = 1%nat /\
  (code = 0 \/ code = 1) /\
  (code = 1 -> lines = ["unknown"]) /\
  (code = 0 <->
   exists prog dir rest text d,
     argv = prog :: dir :: rest /\
     read_text env (path_join env dir "plugin.json") = Ok text /\
     json_loads (lib env) text = Ok (PDict d)).
Proof.
  intros lines code. subst lines code. unfold main, read_version.
  destruct argv as [|prog [|dir rest]].
  - cbn [fst snd]. repeat split; auto; try discriminate.
    intros (? & ? & ? & ? & ? & H & _). discriminate H.
  - cbn [fst snd]. repeat split; auto; try discriminate.
    intros (? & ? & ? & ? & ? & H & _). discriminate H.
  - destruct (read_text env (path_join env dir "plugin.json")) as [text|e]
      eqn:R; cbn [rbind fst snd].
    + destruct (json_loads (lib env) text) as [v|e] eqn:L; cbn [rbind fst snd].
      * destruct v as [ | | | | | |d]; cbn [Py.get rbind fst snd];
          repeat split; auto; try discriminate;
          try (intros (? & ? & ? & ? & ? & [= <- <- <-] & R' & L');
               rewrite R in R'; injection R' as <-;
               rewrite L in L'; discriminate L').
        intros _. exists prog, dir, rest, text, d. now repeat split.
      * repeat split; auto; try discriminate.
        intros (? & ? & ? & ? & ? & [= <- <- <-] & R' & L').
        rewrite R in R'. injection R' as <-. rewrite L in L'. discriminate L'.
    + repeat split; auto; try discriminate.
      intros (? & ? & ? & ? & ? & [= <- <- <-] & R' & _).
      rewrite R in R'. discriminate R'.
Qed.

End GetVersionMore.
